(** * chart_engine: a shallow embedding of [build_chart] and its helpers

    The Python module [chart_engine/__init__.py] is embedded function by
    function.  Python values are a tagged union, exceptions are an error
    monad, floats are IEEE binary64 ([PrimFloat]), the request payload is a
    finite map, the placements mapping is an insertion-ordered association
    list, and the Swiss Ephemeris binding ([swisseph]) is a record of
    functions the chart builder is parametrised by. *)

From Stdlib Require Import ZArith Floats String Ascii List Lia DecimalString.
From stdpp Require Import base option list gmap strings.
Import ListNotations.

Local Open Scope string_scope.
Local Open Scope Z_scope.

(** ** Exceptions and the error monad *)

(** The subclasses of [Exception] that occur; [str(e)] is the message. *)
Inductive exn : Type :=
| ValueError (msg : string)
| RuntimeError (msg : string)
| TypeError (msg : string)
| IndexError (msg : string)
| ZeroDivisionError (msg : string)
| SweError (msg : string).        (* swisseph.Error, raised by the provider *)

Definition exn_str (e : exn) : string :=
  match e with
  | ValueError m | RuntimeError m | TypeError m | IndexError m
  | ZeroDivisionError m | SweError m => m
  end.

Inductive res (A : Type) : Type :=
| Ok (a : A)
| Raise (e : exn).
Arguments Ok {A} a.
Arguments Raise {A} e.

#[global] Instance res_ret : MRet res := fun A a => Ok a.
#[global] Instance res_bind : MBind res := fun A B k m =>
  match m with
  | Ok a => k a
  | Raise e => Raise e
  end.

(** [try: m except Exception as e: h e] *)
Definition try_except {A} (m : res A) (h : exn -> res A) : res A :=
  match m with
  | Ok a => Ok a
  | Raise e => h e
  end.

(** [for x in xs: acc = step acc x], stopping at the first exception. *)
Fixpoint for_each {A S} (step : S -> A -> res S) (xs : list A) (acc : S) : res S :=
  match xs with
  | [] => Ok acc
  | x :: rest => acc' ← step acc x; for_each step rest acc'
  end.

(** ** Python values *)

(** A [datetime.datetime]; [tzinfo] is the fixed UTC offset in microseconds
    of an aware value and [None] for a naive one. *)
Record datetime : Type := mk_datetime {
  year : Z; month : Z; day : Z;
  hour : Z; minute : Z; second : Z; microsecond : Z;
  tzinfo : option Z
}.

#[warnings="-register-all"]
Inductive pyval : Type :=
| VNone
| VBool (b : bool)
| VInt (z : Z)
| VFloat (f : float)
| VStr (s : string)
| VDatetime (d : datetime)
| VTuple (items : list pyval)
| VList (items : list pyval).

(** [type(v).__name__], as it appears in the interpreter's messages. *)
Definition type_name (v : pyval) : string :=
  match v with
  | VNone => "NoneType"
  | VBool _ => "bool"
  | VInt _ => "int"
  | VFloat _ => "float"
  | VStr _ => "str"
  | VDatetime _ => "datetime.datetime"
  | VTuple _ => "tuple"
  | VList _ => "list"
  end.

(** ** Sequence indexing: [v[i]], with negative indices from the end *)

Definition seq_index {A} (what : string) (l : list A) (i : Z) : res A :=
  let n := Z.of_nat (length l) in
  let j := if i <? 0 then i + n else i in
  if (j <? 0) || (n <=? j) then Raise (IndexError (what ++ " index out of range"))
  else match l !! Z.to_nat j with
       | Some x => Ok x
       | None => Raise (IndexError (what ++ " index out of range"))
       end.

Definition py_getitem (v : pyval) (i : Z) : res pyval :=
  match v with
  | VTuple l => seq_index "tuple" l i
  | VList l => seq_index "list" l i
  | VStr s =>
      c ← seq_index "string" (list_ascii_of_string s) i;
      Ok (VStr (String c EmptyString))
  | _ => Raise (TypeError ("'" ++ type_name v ++ "' object is not subscriptable"))
  end.

(** ** Floats *)

(** [float(n)] for an int that converts without overflow: rounded to nearest,
    ties to even. *)
Definition float_of_Z (z : Z) : float :=
  SF2Prim (binary_normalize prec emax z 0 false).

(** [a / b] on ints (true division).  The operands here are datetime fields
    and small literals, which convert exactly, so the quotient of the
    converted operands is the correctly rounded quotient. *)
Definition int_truediv (a b : Z) : float :=
  (float_of_Z a / float_of_Z b)%float.

(** C's [fmod] on the exact values of the operands. *)
Definition SF_fmod (x y : spec_float) : spec_float :=
  match x, y with
  | S754_nan, _ | _, S754_nan => S754_nan
  | S754_infinity _, _ => S754_nan
  | _, S754_zero _ => S754_nan
  | S754_zero s, _ => S754_zero s
  | S754_finite _ _ _, S754_infinity _ => x
  | S754_finite sx mx ex, S754_finite _ my ey =>
      let e := Z.min ex ey in
      match (Z.pos mx * 2 ^ (ex - e)) mod (Z.pos my * 2 ^ (ey - e)) with
      | Z.pos r => S754_finite sx r e
      | _ => S754_zero sx
      end
  end.

Definition fmod (x y : float) : float := SF2Prim (SF_fmod (Prim2SF x) (Prim2SF y)).

(** [v % w] on floats (CPython's [float_rem]): [fmod], then the sign of the
    divisor. *)
Definition float_mod (v w : float) : res float :=
  if (w =? 0)%float then Raise (ZeroDivisionError "float modulo")
  else
    let m := fmod v w in
    if negb (m =? 0)%float then
      if xorb (w <? 0)%float (m <? 0)%float then Ok (m + w)%float else Ok m
    else Ok (if (w <? 0)%float then PrimFloat.neg_zero else PrimFloat.zero).

(** [speed < 0] *)
Definition py_lt_zero (v : pyval) : res bool :=
  match v with
  | VFloat f => Ok (f <? 0)%float
  | VInt z => Ok (z <? 0)
  | VBool _ => Ok false
  | _ => Raise (TypeError ("'<' not supported between instances of '"
                           ++ type_name v ++ "' and 'int'"))
  end.

(** ** Text: digits and fixed-width fields *)

Definition is_digit (c : ascii) : bool :=
  let n := Z.of_nat (nat_of_ascii c) in (48 <=? n) && (n <=? 57).

Definition digit_val (c : ascii) : Z := Z.of_nat (nat_of_ascii c) - 48.

(** A run of exactly [n] ASCII digits, read as a decimal number. *)
Definition parse_digits (n : nat) (cs : list ascii) : option Z :=
  if (length cs =? n)%nat && forallb is_digit cs && negb (n =? 0)%nat
  then Some (fold_left (fun acc c => 10 * acc + digit_val c) cs 0)
  else None.

(** [n] printed in at least [w] decimal digits, zero-filled ([%02d], [%04d]);
    the numbers printed here are never negative. *)
Definition zero_pad (w : nat) (n : Z) : string :=
  let s := NilZero.string_of_uint (N.to_uint (Z.to_N n)) in
  string_of_list_ascii (replicate (w - String.length s) "0"%char) ++ s.

(** [str(n)] for an int. *)
Definition str_of_Z (z : Z) : string := NilZero.string_of_int (Z.to_int z).

(** ** [datetime] from the standard library *)

Definition is_leap (y : Z) : bool :=
  (y mod 4 =? 0) && (negb (y mod 100 =? 0) || (y mod 400 =? 0)).

Definition days_in_month (y m : Z) : Z :=
  if m =? 2 then (if is_leap y then 29 else 28)
  else if (m =? 4) || (m =? 6) || (m =? 9) || (m =? 11) then 30
  else 31.

(** The range checks of the [datetime(...)] constructor and of
    [timezone(offset)]. *)
Definition datetime_fields_ok (d : datetime) : bool :=
  (1 <=? year d) && (year d <=? 9999) &&
  (1 <=? month d) && (month d <=? 12) &&
  (1 <=? day d) && (day d <=? days_in_month (year d) (month d)) &&
  (0 <=? hour d) && (hour d <=? 23) &&
  (0 <=? minute d) && (minute d <=? 59) &&
  (0 <=? second d) && (second d <=? 59) &&
  (0 <=? microsecond d) && (microsecond d <=? 999999) &&
  match tzinfo d with
  | None => true
  | Some off => (-86400000000 <? off) && (off <? 86400000000)
  end.

(** [YYYY-MM-DD] *)
Definition parse_isoformat_date (cs : list ascii) : option (Z * Z * Z) :=
  y ← parse_digits 4 (take 4 cs);
  guard (cs !! 4%nat = Some "-"%char);;
  m ← parse_digits 2 (take 2 (drop 5 cs));
  guard (cs !! 7%nat = Some "-"%char);;
  d ← parse_digits 2 (take 2 (drop 8 cs));
  guard (length cs = 10%nat);;
  Some (y, m, d).

(** [.fff[fff]] or nothing, in microseconds *)
Definition parse_fraction (cs : list ascii) : option Z :=
  match cs with
  | [] => Some 0
  | "."%char :: f =>
      if (length f =? 3)%nat then us ← parse_digits 3 f; Some (us * 1000)
      else parse_digits 6 f
  | _ => None
  end.

(** [HH[:MM[:SS[.fff[fff]]]]] *)
Definition parse_hh_mm_ss_ff (cs : list ascii) : option (Z * Z * Z * Z) :=
  hh ← parse_digits 2 (take 2 cs);
  match drop 2 cs with
  | [] => Some (hh, 0, 0, 0)
  | ":"%char :: r1 =>
      mm ← parse_digits 2 (take 2 r1);
      match drop 2 r1 with
      | [] => Some (hh, mm, 0, 0)
      | ":"%char :: r2 =>
          ss ← parse_digits 2 (take 2 r2);
          us ← parse_fraction (drop 2 r2);
          Some (hh, mm, ss, us)
      | _ => None
      end
  | _ => None
  end.

(** The time of day up to the first sign character, and what follows it. *)
Fixpoint split_at_sign (cs : list ascii) : list ascii * option (ascii * list ascii) :=
  match cs with
  | [] => ([], None)
  | c :: rest =>
      if (c =? "+")%char || (c =? "-")%char then ([], Some (c, rest))
      else let '(t, tz) := split_at_sign rest in (c :: t, tz)
  end.

(** [HH[:MM[:SS[.fff[fff]]]][+HH:MM[:SS[.ffffff]]]]; the offset is returned
    in microseconds. *)
Definition parse_isoformat_time (cs : list ascii)
  : option (Z * Z * Z * Z * option Z) :=
  let '(tstr, tz) := split_at_sign cs in
  '(hh, mm, ss, us) ← parse_hh_mm_ss_ff tstr;
  match tz with
  | None => Some (hh, mm, ss, us, None)
  | Some (sign, tzstr) =>
      let n := length tzstr in
      guard ((n =? 5)%nat || (n =? 8)%nat || (n =? 15)%nat = true);;
      '(th, tm, ts, tus) ← parse_hh_mm_ss_ff tzstr;
      let off := ((th * 3600 + tm * 60 + ts) * 1000000 + tus) in
      Some (hh, mm, ss, us, Some (if (sign =? "-")%char then - off else off))
  end.

(** The format documented for [datetime.fromisoformat] up to Python 3.10,
    [YYYY-MM-DD[*HH[:MM[:SS[.fff[fff]]]][+HH:MM[:SS[.ffffff]]]]] where [*] is
    any single character, with the range checks of the constructor.  Every
    string read here is read the same by every version of the function; a
    string not read here ([None]) is refused up to Python 3.10 and may be
    read by a later version ([datetime_fromisoformat] below). *)
Definition fromisoformat (s : string) : option datetime :=
  let cs := list_ascii_of_string s in
  '(y, m, d) ← parse_isoformat_date (take 10 cs);
  '(hh, mm, ss, us, tz) ←
     match drop 10 cs with
     | [] => Some (0, 0, 0, 0, None)
     | _ :: tstr => parse_isoformat_time tstr
     end;
  let dt := mk_datetime y m d hh mm ss us tz in
  if datetime_fields_ok dt then Some dt else None.

(** ** The interpreter's conversions and the ephemeris provider *)

(** What is taken as given of the interpreter and its platform: [float(s)]
    on a string ([None] for the [ValueError]); the text of the values whose
    printing is not spelled out below, [str(v)] of a float or a datetime and
    [repr(v)] of a float, a string or a datetime; the limit on the decimal
    digits of an int converted to text ([sys.get_int_max_str_digits()],
    4300 unless set otherwise, [0] for none); what [datetime.fromisoformat]
    makes of a string outside the format documented up to Python 3.10
    ([None] for the [ValueError]: the later versions read further ISO 8601
    forms); and the width of [%Y]. *)
Record Interp : Type := {
  float_of_str : string -> option float;
  str_other : pyval -> string;
  repr_other : pyval -> string;
  int_max_str_digits : Z;
  fromisoformat_other : string -> option datetime;
  (* whether the C library's strftime zero-fills %Y to four digits
     (glibc prints years below 1000 without leading zeros) *)
  year_zero_filled : bool
}.

(** [datetime.fromisoformat(s)] of the running interpreter: the documented
    format, and beyond it what the interpreter's version reads.  No version
    reads a string of fewer than seven characters, the length of the
    shortest ISO 8601 date ([YYYYWww]). *)
Definition datetime_fromisoformat (py : Interp) (s : string) : option datetime :=
  match fromisoformat s with
  | Some dt => Some dt
  | None => if (String.length s <? 7)%nat then None else fromisoformat_other py s
  end.

(** The body codes the chart uses ([swe.SUN], ...). *)
Inductive body : Type :=
| SUN | MOON | MERCURY | VENUS | MARS | JUPITER | SATURN | URANUS | NEPTUNE
| PLUTO | CHIRON | MEAN_NODE | MEAN_APOG.

#[global] Instance body_eq_dec : EqDecision body.
Proof. solve_decision. Defined.

(** The [swisseph] functions [build_chart] calls.  [calc_ut] returns a
    Python object whose shape the caller inspects; [houses_ex] returns the
    two tuples [(cusps, ascmc)]. *)
Record Swe : Type := {
  julday : Z -> Z -> Z -> float -> res float;
  calc_ut : float -> body -> res pyval;
  houses_ex : float -> float -> float -> string -> res (list float * list float);
  get_planet_name : body -> string
}.

(** ** Dictionaries in insertion order *)

(** [d[k] = v]: an existing key keeps its position, a new key goes last. *)
Fixpoint dict_set {V} (d : list (string * V)) (k : string) (v : V) : list (string * V) :=
  match d with
  | [] => [(k, v)]
  | (k', v') :: rest =>
      if String.eqb k' k then (k', v) :: rest else (k', v') :: dict_set rest k v
  end.

(** [d[k]] *)
Fixpoint dict_get {V} (d : list (string * V)) (k : string) : option V :=
  match d with
  | [] => None
  | (k', v') :: rest => if String.eqb k' k then Some v' else dict_get rest k
  end.

(** [list(d.keys())] *)
Definition dict_keys {V} (d : list (string * V)) : list string := map fst d.

(** ** The module *)

Module Placement.
(** The dict literal of one placement. *)
Record t : Type := mk {
  longitude : pyval;
  latitude : pyval;
  distance_au : pyval;
  speed : pyval;
  retrograde : bool
}.
End Placement.

(** The dict [build_chart] returns. *)
Record chart : Type := mk_chart {
  name : pyval;
  datetime_utc : string;
  latitude : float;
  longitude : float;
  julian_day : float;
  placements : list (string * Placement.t)
}.

Definition ends_with_Z (s : string) : bool :=
  match last (list_ascii_of_string s) with
  | Some c => (c =? "Z")%char
  | None => false
  end.

(** [s[:-1]] *)
Definition drop_last (s : string) : string :=
  string_of_list_ascii (removelast (list_ascii_of_string s)).

Definition _parse_datetime (py : Interp) (dt_input : pyval) : res datetime :=
  match dt_input with
  | VStr s0 =>
      let s := if ends_with_Z s0 then drop_last s0 else s0 in
      match datetime_fromisoformat py s with
      | Some dt => Ok dt
      | None =>
          Raise (ValueError ("Invalid datetime_utc: '" ++ s0
                             ++ "'. Use 'YYYY-MM-DDTHH:MM:SSZ'."))
      end
  | VDatetime dt => Ok dt
  | _ =>
      Raise (ValueError
        "datetime_utc must be an ISO8601 string ending in 'Z' or a datetime instance.")
  end.

Definition bodies : list body :=
  [SUN; MOON; MERCURY; VENUS; MARS;
   JUPITER; SATURN; URANUS; NEPTUNE; PLUTO;
   CHIRON; MEAN_NODE; MEAN_APOG].

(** [isinstance(result, tuple) and len(result) == 2] *)
Definition is_tuple_of_two (result : pyval) : bool :=
  match result with
  | VTuple items => (length items =? 2)%nat
  | _ => false
  end.

(** Lines 80-89: the four values taken from what [calc_ut] returned. *)
Definition unpack_result (result : pyval) : res (pyval * pyval * pyval * pyval) :=
  if is_tuple_of_two result then
    data ← py_getitem result 0;
    lon_deg ← py_getitem data 0;
    lat_deg ← py_getitem data 1;
    dist ← py_getitem data 2;
    speed ← py_getitem data 3;
    Ok (lon_deg, lat_deg, dist, speed)
  else
    lon_deg ← py_getitem result (-4);
    lat_deg ← py_getitem result (-3);
    dist ← py_getitem result (-2);
    speed ← py_getitem result (-1);
    (* the same four reads once more *)
    lon_deg ← py_getitem result (-4);
    lat_deg ← py_getitem result (-3);
    dist ← py_getitem result (-2);
    speed ← py_getitem result (-1);
    Ok (lon_deg, lat_deg, dist, speed).

(** The message of the [ValueError] of an int with too many digits to be
    converted to text (the wording of Python 3.11). *)
Definition digit_limit_message (limit : Z) : string :=
  "Exceeds the limit (" ++ str_of_Z limit
  ++ " digits) for integer string conversion; "
  ++ "use sys.set_int_max_str_digits() to increase the limit".

Section ChartEngine.
Variable py : Interp.
Variable swe : Swe.

(** [float(v)]; [None] stands for the exception it raises. *)
Definition py_float (v : pyval) : option float :=
  match v with
  | VFloat f => Some f
  | VInt z =>
      let f := float_of_Z z in
      if is_infinity f then None else Some f
  | VBool b => Some (if b then 1 else 0)%float
  | VStr s => float_of_str py s
  | _ => None
  end.

(** [str(n)] of an int: refused with a [ValueError] when the int has more
    decimal digits than the interpreter's limit. *)
Definition int_str (z : Z) : res string :=
  let limit := int_max_str_digits py in
  if (0 <? limit) && (limit <? Z.of_nat (String.length (str_of_Z (Z.abs z)))) then
    Raise (ValueError (digit_limit_message limit))
  else Ok (str_of_Z z).

(** [repr(v)]: a tuple or a list prints the [repr] of its items in turn. *)
Fixpoint py_repr (v : pyval) : res string :=
  match v with
  | VNone => Ok "None"
  | VBool true => Ok "True"
  | VBool false => Ok "False"
  | VInt z => int_str z
  | VTuple items =>
      texts ← mapM py_repr items;
      Ok ("(" ++ String.concat ", " texts
          ++ (if (length items =? 1)%nat then "," else "") ++ ")")
  | VList items =>
      texts ← mapM py_repr items;
      Ok ("[" ++ String.concat ", " texts ++ "]")
  | _ => Ok (repr_other py v)
  end.

(** [str(v)], as an f-string field prints it. *)
Definition py_str (v : pyval) : res string :=
  match v with
  | VStr s => Ok s
  | VFloat _ | VDatetime _ => Ok (str_other py v)
  | _ => py_repr v
  end.

(** [payload.get(key)] *)
Definition payload_get (payload : gmap string pyval) (key : string) : pyval :=
  default VNone (payload !! key).

(** [dt.strftime('%Y-%m-%dT%H:%M:%SZ')]: two digits for every field but
    the year; the microseconds and the offset are not printed. *)
Definition strftime_iso_z (dt : datetime) : string :=
  zero_pad (if year_zero_filled py then 4 else 1) (year dt)
  ++ "-" ++ zero_pad 2 (month dt) ++ "-" ++ zero_pad 2 (day dt)
  ++ "T" ++ zero_pad 2 (hour dt) ++ ":" ++ zero_pad 2 (minute dt) ++ ":"
  ++ zero_pad 2 (second dt) ++ "Z".

(** The body of the loop over [bodies] up to the store (lines 73-96):
    the placement computed for one body code. *)
Definition body_placement (jd : float) (code : body) : res Placement.t :=
  result ← try_except (calc_ut swe jd code)
    (fun e =>
       let name := get_planet_name swe code in
       Raise (RuntimeError ("Failed to calculate " ++ name ++ ": " ++ exn_str e)));
  '(lon_deg, lat_deg, dist, speed) ← unpack_result result;
  retro ← py_lt_zero speed;
  Ok (Placement.mk lon_deg lat_deg dist speed retro).

(** One pass of the loop: [placements[swe.get_planet_name(code)] = {...}]. *)
Definition body_step (jd : float) (placements : list (string * Placement.t))
    (code : body) : res (list (string * Placement.t)) :=
  pl ← body_placement jd code;
  Ok (dict_set placements (get_planet_name swe code) pl).

(** The placement of a chart angle (line 109). *)
Definition angle_placement (angle : float) : Placement.t :=
  Placement.mk (VFloat angle) (VFloat 0) (VFloat 0) (VFloat 0) false.

Definition build_chart (payload : gmap string pyval) : res chart :=
  (* 1. Parse and validate datetime *)
  dt ← _parse_datetime py (default (VStr "") (payload !! "datetime_utc"));
  (* 2. Validate coordinates: whatever is raised inside a try block, the
     bare ValueError of the range test included, lands in its except
     clause, so the block either yields the float or fails; the except
     clause prints the raw value, which can itself raise *)
  lat ← match (lat ← py_float (payload_get payload "latitude");
               if negb ((-90 <=? lat) && (lat <=? 90))%float then None
               else Some lat) with
        | Some lat => Ok lat
        | None =>
            raw ← py_str (payload_get payload "latitude");
            Raise (ValueError ("Latitude must be between -90 and 90. Got: "
                               ++ raw ++ "."))
        end;
  lon ← match (lon ← py_float (payload_get payload "longitude");
               if negb ((-180 <=? lon) && (lon <=? 180))%float then None
               else Some lon) with
        | Some lon => Ok lon
        | None =>
            raw ← py_str (payload_get payload "longitude");
            Raise (ValueError ("Longitude must be between -180 and 180. Got: "
                               ++ raw ++ "."))
        end;
  (* 3. Compute Julian Day (UT) *)
  jd ← try_except
         (julday swe (year dt) (month dt) (day dt)
            (float_of_Z (hour dt) + int_truediv (minute dt) 60
             + int_truediv (second dt) 3600)%float)
         (fun e => Raise (RuntimeError ("Failed to compute Julian Day: " ++ exn_str e)));
  (* 4. Calculate planetary and minor body placements *)
  placements ← for_each (body_step jd) bodies [];
  (* 5. Compute house angles: ASC, MC, DC, IC *)
  '(asc, mc, dc, ic) ←
    try_except
      ('(cusps, ascmc) ← houses_ex swe jd lat lon "P";
       asc ← seq_index "tuple" ascmc 0;
       mc ← seq_index "tuple" ascmc 1;
       dc ← float_mod (asc + 180) 360;
       ic ← float_mod (mc + 180) 360;
       Ok (asc, mc, dc, ic))
      (fun e => Raise (RuntimeError ("Failed to compute houses/angles: " ++ exn_str e)));
  let angles := [("Ascendant", asc); ("Midheaven", mc); ("Descendant", dc); ("IC", ic)] in
  let placements :=
    fold_left (fun pl '(name, angle) => dict_set pl name (angle_placement angle))
              angles placements in
  (* 6. Return the result dict *)
  Ok {| name := payload_get payload "name";
        datetime_utc := strftime_iso_z dt;
        latitude := lat;
        longitude := lon;
        julian_day := jd;
        placements := placements |}.

End ChartEngine.

(** ** What the properties are stated with *)

Definition angle_names : list string := ["Ascendant"; "Midheaven"; "Descendant"; "IC"].

(** The four stores of the loop over [angles.items()], unrolled. *)
Definition angle_store (pls : list (string * Placement.t)) (asc mc dc ic : float)
  : list (string * Placement.t) :=
  dict_set (dict_set (dict_set (dict_set pls "Ascendant" (angle_placement asc))
    "Midheaven" (angle_placement mc)) "Descendant" (angle_placement dc))
    "IC" (angle_placement ic).

(** The invariant of a placement: [retrograde] is [speed < 0]. *)
Definition retrograde_is_sign (pl : Placement.t) : Prop :=
  py_lt_zero (Placement.speed pl) = Ok (Placement.retrograde pl).

(** [-speed] on a number, and whether a number is strictly negative or
    strictly positive. *)
Definition py_neg (v : pyval) : pyval :=
  match v with
  | VFloat f => VFloat (- f)
  | VInt z => VInt (- z)
  | _ => v
  end.

Definition has_sign (v : pyval) : bool :=
  match v with
  | VFloat f => ((f <? 0) || (0 <? f))%float
  | VInt z => negb (z =? 0)
  | _ => false
  end.

(** The key list of the placements mapping as the specification words it. *)
Definition spec_placement_keys : list string :=
  ["Sun"; "Moon"; "Mercury"; "Venus"; "Mars"; "Jupiter"; "Saturn"; "Uranus";
   "Neptune"; "Pluto"; "Chiron"; "Mean Node"; "Lilith(mean apogee)";
   "Ascendant"; "Midheaven"; "Descendant"; "IC"].

(** The data a provider result carries, without the status it may be
    wrapped with, and its last four values: the specification's reading of
    the unpacking. *)
Definition returned_data (result : pyval) : list pyval :=
  match result with
  | VTuple [VTuple data; _] | VTuple [VList data; _] => data
  | VTuple l | VList l => l
  | _ => []
  end.

Definition last_four {A} (l : list A) : option (A * A * A * A) :=
  match rev l with
  | d :: c :: b :: a :: _ => Some (a, b, c, d)
  | _ => None
  end.

Definition is_value_error (e : exn) : bool :=
  match e with
  | ValueError _ => true
  | _ => false
  end.





Section Requirements.
Variable py : Interp.
Variable swe : Swe.

(** A coordinate as the specification requires it: convertible to a
    finite float that lies in [[lo, hi]]. *)
Definition coordinate_ok (lo hi : float) (raw : pyval) : bool :=
  match py_float py raw with
  | Some f => is_finite f && (lo <=? f)%float && (f <=? hi)%float
  | None => false
  end.

(** The request passes validation with these canonical values. *)
Definition validates (p : gmap string pyval) (dt : datetime) (lat lon : float) : Prop :=
  _parse_datetime py (default (VStr "") (p !! "datetime_utc")) = Ok dt /\
  py_float py (payload_get p "latitude") = Some lat /\
  coordinate_ok (-90) 90 (payload_get p "latitude") = true /\
  py_float py (payload_get p "longitude") = Some lon /\
  coordinate_ok (-180) 180 (payload_get p "longitude") = true.

(** The fractional hour handed to [julday]. *)
Definition fractional_hour (dt : datetime) : float :=
  (float_of_Z (hour dt) + int_truediv (minute dt) 60
   + int_truediv (second dt) 3600)%float.

(** The speed [build_chart] reads from an answer of [calc_ut]: the fourth
    value of the data of a pair [(data, status)], the last of a direct
    answer of four values or more. *)
Definition answer_speed (result : pyval) : option pyval :=
  match result with
  | VTuple [VTuple data; _] | VTuple [VList data; _] => data !! 3%nat
  | VTuple l | VList l => if (4 <=? length l)%nat then last l else None
  | _ => None
  end.

(** An answer that carries its four values and a speed that is a number. *)
Definition usable_answer (result : pyval) : bool :=
  match answer_speed result with
  | Some (VFloat _) | Some (VInt _) | Some (VBool _) => true
  | _ => false
  end.

(** Every provider call of a build succeeds, with usable answers for the
    bodies and two angles or more in [ascmc].  This is a condition on the
    provider alone. *)
Definition provider_succeeds (dt : datetime) (lat lon : float) : Prop :=
  exists jd,
    julday swe (year dt) (month dt) (day dt) (fractional_hour dt) = Ok jd /\
    (forall c, c ∈ bodies ->
       exists result, calc_ut swe jd c = Ok result /\ usable_answer result = true) /\
    exists cusps ascmc,
      houses_ex swe jd lat lon "P" = Ok (cusps, ascmc) /\ (2 <= length ascmc)%nat.
End Requirements.

(** ** A stubbed provider for the examples *)

(** The display names of the Swiss Ephemeris (its [SE_NAME_...] strings). *)
Definition swisseph_name (c : body) : string :=
  match c with
  | SUN => "Sun" | MOON => "Moon" | MERCURY => "Mercury" | VENUS => "Venus"
  | MARS => "Mars" | JUPITER => "Jupiter" | SATURN => "Saturn"
  | URANUS => "Uranus" | NEPTUNE => "Neptune" | PLUTO => "Pluto"
  | CHIRON => "Chiron" | MEAN_NODE => "mean Node" | MEAN_APOG => "mean Apogee"
  end.

(** A provider that answers every body with the same wrapped six values
    (the fourth is [speed]), fails on [failing] if given, and returns fixed
    house angles. *)
Definition swe_stub (speed : float) (failing : option body) : Swe := {|
  julday := fun y m d h => Ok (2460389.5 + h / 24)%float;
  calc_ut := fun jd c =>
    if bool_decide (failing = Some c) then Raise (SweError "simulated failure")
    else Ok (VTuple [VTuple [VFloat 10.5; VFloat 0.25; VFloat 1.5; VFloat speed;
                             VFloat 0.125; VFloat 0.0625];
                     VInt 258]);
  houses_ex := fun jd lat lon hsys =>
    Ok ([0; 200.5; 230; 260; 290.25; 320; 350; 20.5; 50; 80; 110.25; 140; 170]%float,
        [200.5; 290.25; 285; 30; 0; 0; 0; 0]%float);
  get_planet_name := swisseph_name
|}.

(** An interpreter stand-in: a Python up to 3.10 (nothing is read beyond
    the documented format) with the default digit limit on a glibc
    platform; the examples convert no string to a float and print no
    float. *)
Definition interp_stub : Interp :=
  {| float_of_str := fun _ => None; str_other := fun _ => ""; repr_other := fun _ => "";
     int_max_str_digits := 4300; fromisoformat_other := fun _ => None;
     year_zero_filled := false |}.

Definition example_payload (dt lat lon : pyval) : gmap string pyval :=
  <["datetime_utc" := dt]> (<["latitude" := lat]> (<["longitude" := lon]> ∅)).

Definition equinox_payload : gmap string pyval :=
  example_payload (VStr "2024-03-20T03:06:00Z") (VInt 0) (VInt 0).

(** ** The endpoint ([api/main.py]) *)

Module PlanetPlacement.
Record t : Type := mk {
  longitude : float;
  latitude : float;
  distance_au : float;
  speed : float;
  retrograde : bool
}.
End PlanetPlacement.

Module ChartResponse.
Record t : Type := mk {
  name : option string;
  datetime_utc : string;
  latitude : float;
  longitude : float;
  julian_day : float;
  placements : list (string * PlanetPlacement.t)
}.
End ChartResponse.

Module ChartRequest.
Record t : Type := mk {
  name : option string;
  datetime_utc : string;    (* ISO 8601 ending in 'Z' *)
  latitude : float;
  longitude : float
}.
End ChartRequest.

(** What is taken as given of the model validation: what it makes of a
    value that is not a float offered to a float field, and of one that is
    neither [None] nor a string offered to an optional string field
    ([None] for a refusal), and the text of its error for a result it
    refuses. *)
Record Pydantic : Type := {
  coerce_float : pyval -> option float;
  coerce_optional_str : pyval -> option (option string);
  validation_message : chart -> string
}.

(** What the endpoint gives back: the response model, or the
    [HTTPException] it raises. *)
Inductive http_outcome : Type :=
| Response (body : ChartResponse.t)
| HTTPException (status_code : Z) (detail : string).

Section Endpoint.
Variable py : Interp.
Variable swe : Swe.
Variable pd : Pydantic.

(** [req.dict()] *)
Definition request_dict (req : ChartRequest.t) : gmap string pyval :=
  <["name" := match ChartRequest.name req with Some s => VStr s | None => VNone end]>
  (<["datetime_utc" := VStr (ChartRequest.datetime_utc req)]>
  (<["latitude" := VFloat (ChartRequest.latitude req)]>
  (<["longitude" := VFloat (ChartRequest.longitude req)]> ∅))).

Definition as_float (v : pyval) : option float :=
  match v with
  | VFloat f => Some f
  | _ => coerce_float pd v
  end.

Definition as_optional_str (v : pyval) : option (option string) :=
  match v with
  | VNone => Some None
  | VStr s => Some (Some s)
  | _ => coerce_optional_str pd v
  end.

(** The validation of one placement dict as a [PlanetPlacement]. *)
Definition planet_placement (pl : Placement.t) : option PlanetPlacement.t :=
  lo ← as_float (Placement.longitude pl);
  la ← as_float (Placement.latitude pl);
  di ← as_float (Placement.distance_au pl);
  sp ← as_float (Placement.speed pl);
  Some (PlanetPlacement.mk lo la di sp (Placement.retrograde pl)).

(** The call of [ChartResponse] with the entries of [result] as keyword
    arguments. *)
Definition chart_response (result : chart) : res ChartResponse.t :=
  match (n ← as_optional_str (name result);
         pls ← mapM (fun kv => pl ← planet_placement kv.2; Some (kv.1, pl))
                    (placements result);
         Some (ChartResponse.mk n (datetime_utc result) (latitude result)
                 (longitude result) (julian_day result) pls)) with
  | Some response => Ok response
  | None => Raise (ValueError (validation_message pd result))
  end.

Definition build_chart_endpoint (req : ChartRequest.t) : http_outcome :=
  match (result ← build_chart py swe (request_dict req);
         chart_response result) with
  | Ok response => Response response
  | Raise e => HTTPException 500 (exn_str e)
  end.

(** A placement whose four numbers are floats. *)
Definition all_floats (pl : Placement.t) : bool :=
  match Placement.longitude pl, Placement.latitude pl,
        Placement.distance_au pl, Placement.speed pl with
  | VFloat _, VFloat _, VFloat _, VFloat _ => true
  | _, _, _, _ => false
  end.

End Endpoint.

Definition pydantic_stub : Pydantic :=
  {| coerce_float := fun _ => None;
     coerce_optional_str := fun _ => None;
     validation_message := fun _ => "validation error for ChartResponse" |}.

(** ** What the further properties are stated with *)

(** The kinds of exception that leave [build_chart] past validation. *)
Definition is_runtime_error (e : exn) : bool :=
  match e with
  | RuntimeError _ => true
  | _ => false
  end.

Definition is_shape_error (e : exn) : bool :=
  match e with
  | TypeError _ | IndexError _ => true
  | _ => false
  end.

(** Two datetimes that show the same date and the same time to the second. *)
Definition same_wall_clock (d d' : datetime) : Prop :=
  year d = year d' /\ month d = month d' /\ day d = day d' /\
  hour d = hour d' /\ minute d = minute d' /\ second d = second d'.

(** The keys of a dictionary filled by storing under [ks] in turn: each key
    at its first occurrence. *)
Definition key_add (keys : list string) (k : string) : list string :=
  if bool_decide (k ∈ keys) then keys else (keys ++ [k])%list.

Definition keys_stored (ks : list string) : list string := fold_left key_add ks [].

(** A provider whose answers are given outright. *)
Definition swe_fixed (jd : res float) (answer : body -> res pyval)
    (houses : res (list float * list float)) (names : body -> string) : Swe := {|
  julday := fun y m d h => jd;
  calc_ut := fun jd c => answer c;
  houses_ex := fun jd lat lon hsys => houses;
  get_planet_name := names
|}.

Definition wrapped_answer (speed : float) : pyval :=
  VTuple [VTuple [VFloat 10.5; VFloat 0.25; VFloat 1.5; VFloat speed;
                  VFloat 0.125; VFloat 0.0625];
          VInt 258].

Definition swe_julday_fails : Swe :=
  swe_fixed (Raise (SweError "invalid date")) (fun _ => Ok (wrapped_answer 0.5))
    (Ok ([], [200.5; 290.25]%float)) swisseph_name.

Definition swe_short_ascmc : Swe :=
  swe_fixed (Ok 2460389.5%float) (fun _ => Ok (wrapped_answer 0.5))
    (Ok ([], [200.5]%float)) swisseph_name.

Definition swe_three_values : Swe :=
  swe_fixed (Ok 2460389.5%float)
    (fun _ => Ok (VTuple [VFloat 10.5; VFloat 0.25; VFloat 1.5]))
    (Ok ([], [200.5; 290.25]%float)) swisseph_name.

(** Providers whose names collide: every body called ["Sun"], and the
    apogee called like an angle. *)
Definition swe_one_name : Swe :=
  swe_fixed (Ok 2460389.5%float) (fun _ => Ok (wrapped_answer 0.5))
    (Ok ([], [200.5; 290.25]%float)) (fun _ => "Sun").

Definition swe_apogee_named_IC : Swe :=
  swe_fixed (Ok 2460389.5%float) (fun _ => Ok (wrapped_answer 0.5))
    (Ok ([], [200.5; 290.25]%float))
    (fun c => match c with MEAN_APOG => "IC" | _ => swisseph_name c end).

(** The values [v[i]] is defined on. *)
Definition subscriptable (v : pyval) : bool :=
  match v with
  | VTuple _ | VList _ | VStr _ => true
  | _ => false
  end.

(** An interpreter stand-in that prints every float as [text]. *)
Definition interp_prints (text : string) : Interp :=
  {| float_of_str := fun _ => None; str_other := fun _ => text; repr_other := fun _ => text;
     int_max_str_digits := 4300; fromisoformat_other := fun _ => None;
     year_zero_filled := false |}.

(* Proofs step through [build_chart] one statement at a time: the helpers
   stay folded under [cbn]. *)
Arguments float_of_Z : simpl never.
Arguments int_truediv : simpl never.
Arguments float_mod : simpl never.
Arguments seq_index : simpl never.
Arguments for_each : simpl never.
Arguments fromisoformat : simpl never.
Arguments datetime_fromisoformat : simpl never.
Arguments int_str : simpl never.
Arguments digit_limit_message : simpl never.
Arguments _parse_datetime : simpl never.
Arguments unpack_result : simpl never.
Arguments py_float : simpl never.
Arguments py_str : simpl never.
Arguments payload_get : simpl never.
Arguments strftime_iso_z : simpl never.
Arguments body_placement : simpl never.
Arguments body_step : simpl never.
Arguments zero_pad : simpl never.

(** * Facts about the floats *)

Lemma Prim2SF_infinity : Prim2SF infinity = S754_infinity false.
Proof. reflexivity. Qed.

Lemma Prim2SF_zero : Prim2SF 0 = S754_zero false.
Proof. reflexivity. Qed.

Lemma SFeqb_refl_finite s m e : SFeqb (S754_finite s m e) (S754_finite s m e) = true.
Proof.
  unfold SFeqb, SFcompare. rewrite Z.compare_refl.
  change (Pos.compare_cont Eq m m) with (m ?= m)%positive.
  rewrite Pos.compare_refl. destruct s; reflexivity.
Qed.

(** A float between two finite floats is finite: the comparisons fail on a
    NaN and on an infinity. *)
Lemma between_finite (lo hi f : float) :
  is_finite lo = true -> is_finite hi = true ->
  ((lo <=? f) && (f <=? hi))%float = true -> is_finite f = true.
Proof.
  unfold is_finite, is_nan, is_infinity.
  rewrite !FloatAxioms.eqb_spec, !leb_spec, !abs_spec, Prim2SF_infinity.
  destruct (Prim2SF lo) as [[]|[]| |[] ml el], (Prim2SF hi) as [[]|[]| |[] mh eh],
    (Prim2SF f) as [[]|[]| |[] m e];
    cbn -[SFeqb SFleb]; rewrite ?SFeqb_refl_finite; cbn; intros; congruence.
Qed.

(** For a speed that is strictly negative or strictly positive, negating
    it negates the outcome of [speed < 0]. *)
Lemma ltb_zero_opp (s : float) :
  ((s <? 0) || (0 <? s))%float = true -> (- s <? 0)%float = negb (s <? 0)%float.
Proof.
  rewrite !ltb_spec, opp_spec, Prim2SF_zero.
  destruct (Prim2SF s) as [[]|[]| |[] m e]; cbn; congruence.
Qed.

Lemma float_mod_360_Ok (x : float) : exists y, float_mod x 360 = Ok y.
Proof.
  unfold float_mod.
  change (360 =? 0)%float with false. change (360 <? 0)%float with false. cbn.
  destruct (negb _); [destruct (_ <? _)%float|]; eauto.
Qed.

(** * Facts about the ordered dictionaries *)

Section Dict.
Context {V : Type}.
Implicit Types (d : list (string * V)) (k : string) (v : V).

Lemma dict_get_set_eq d k v : dict_get (dict_set d k v) k = Some v.
Proof.
  induction d as [|[k' v'] d IH]; cbn.
  - now rewrite String.eqb_refl.
  - destruct (String.eqb_spec k' k) as [->|Hne]; cbn.
    + now rewrite String.eqb_refl.
    + destruct (String.eqb_spec k' k); [contradiction|exact IH].
Qed.

Lemma dict_get_set_ne d k k' v : k <> k' -> dict_get (dict_set d k' v) k = dict_get d k.
Proof.
  intros Hne. induction d as [|[k0 v0] d IH]; cbn.
  - destruct (String.eqb_spec k' k); congruence.
  - destruct (String.eqb_spec k0 k') as [->|]; cbn.
    + destruct (String.eqb_spec k' k); congruence.
    + destruct (String.eqb_spec k0 k); [reflexivity|exact IH].
Qed.

Lemma dict_keys_set_new d k v : k ∉ dict_keys d -> dict_keys (dict_set d k v) = (dict_keys d ++ [k])%list.
Proof.
  unfold dict_keys. induction d as [|[k' v'] d IH]; cbn; intros Hk; [reflexivity|].
  destruct (String.eqb_spec k' k) as [->|]; cbn.
  - exfalso. apply Hk. left.
  - f_equal. apply IH. intros Hin. apply Hk. now right.
Qed.

Lemma dict_keys_set_old d k v : k ∈ dict_keys d -> dict_keys (dict_set d k v) = dict_keys d.
Proof.
  unfold dict_keys. induction d as [|[k' v'] d IH]; cbn; intros Hk.
  - inversion Hk.
  - destruct (String.eqb_spec k' k) as [->|Hne]; cbn; [reflexivity|].
    f_equal. apply IH. inversion Hk; subst; [contradiction|assumption].
Qed.

(** Storing under a key that is new, with more new keys to come. *)
Lemma dict_keys_set_fresh d k v (ks : list string) :
  NoDup (dict_keys d ++ k :: ks) ->
  dict_keys (dict_set d k v) = (dict_keys d ++ [k])%list /\
  NoDup (dict_keys (dict_set d k v) ++ ks).
Proof.
  intros Hnd.
  assert (k ∉ dict_keys d) as Hnew.
  { apply NoDup_app in Hnd as (_ & Hdisj & _). intros Hin. apply (Hdisj _ Hin). left. }
  rewrite (dict_keys_set_new d k v Hnew). split; [reflexivity|].
  now rewrite <- app_assoc.
Qed.

Lemma dict_set_Forall (P : V -> Prop) d k v :
  Forall P (map snd d) -> P v -> Forall P (map snd (dict_set d k v)).
Proof.
  intros Hd Hv. induction d as [|[k' v'] d IH]; cbn in *.
  - now constructor.
  - inversion Hd; subst. destruct (String.eqb_spec k' k); cbn; constructor; auto.
Qed.

Lemma dict_get_Forall (P : V -> Prop) d k v :
  Forall P (map snd d) -> dict_get d k = Some v -> P v.
Proof.
  induction d as [|[k' v'] d IH]; cbn; [discriminate|].
  intros Hd. inversion Hd; subst.
  destruct (String.eqb k' k); [intros [= <-]; assumption|auto].
Qed.
End Dict.

Lemma for_each_cons {A S} (step : S -> A -> res S) x xs acc :
  for_each step (x :: xs) acc = (acc' ← step acc x; for_each step xs acc').
Proof. reflexivity. Qed.

Lemma seq_index_nonneg {A} what (l : list A) (i : Z) x :
  0 <= i -> seq_index what l i = Ok x <-> l !! Z.to_nat i = Some x.
Proof.
  intros Hi. unfold seq_index. cbv zeta.
  assert ((i <? 0) = false) as E by (apply Z.ltb_ge; lia).
  rewrite E. cbv iota. rewrite E, orb_false_l.
  destruct (Z.leb_spec (Z.of_nat (length l)) i) as [Hge|Hlt].
  - rewrite (proj2 (lookup_ge_None l (Z.to_nat i))) by lia. split; discriminate.
  - destruct (l !! Z.to_nat i); split; congruence.
Qed.

(** * Facts about the body loop and the whole build *)

Section Build.
Variable py : Interp.
Variable swe : Swe.

Local Abbreviation name_of := (get_planet_name swe).

Lemma body_placement_Ok jd c pl :
  body_placement swe jd c = Ok pl <->
  exists result lon lat dist sp b,
    calc_ut swe jd c = Ok result /\
    unpack_result result = Ok (lon, lat, dist, sp) /\
    py_lt_zero sp = Ok b /\
    pl = Placement.mk lon lat dist sp b.
Proof.
  unfold body_placement. split.
  - destruct (calc_ut swe jd c) as [result|]; [|discriminate]. cbn.
    destruct (unpack_result result) as [[[[lon lat] dist] sp]|] eqn:Hu; [|discriminate]. cbn.
    destruct (py_lt_zero sp) as [b|] eqn:Hb; [|discriminate]. cbn.
    intros [= <-]. exists result, lon, lat, dist, sp, b. auto.
  - intros (result & lon & lat & dist & sp & b & -> & Hu & Hb & ->). cbn.
    rewrite Hu. cbn. rewrite Hb. reflexivity.
Qed.

Lemma body_placement_invariant jd c pl :
  body_placement swe jd c = Ok pl -> retrograde_is_sign pl.
Proof.
  intros (result & lon & lat & dist & sp & b & _ & _ & Hb & ->)%body_placement_Ok.
  exact Hb.
Qed.

Lemma body_placement_failure jd c e :
  calc_ut swe jd c = Raise e ->
  body_placement swe jd c =
    Raise (RuntimeError ("Failed to calculate " ++ name_of c ++ ": " ++ exn_str e)).
Proof. unfold body_placement. intros ->. reflexivity. Qed.

Lemma body_step_Ok jd acc c acc' :
  body_step swe jd acc c = Ok acc' <->
  exists pl, body_placement swe jd c = Ok pl /\ acc' = dict_set acc (name_of c) pl.
Proof.
  unfold body_step. destruct (body_placement swe jd c) as [pl|]; cbn.
  - split; [intros [= <-]; eauto|intros (? & [= <-] & ->); reflexivity].
  - split; [discriminate|intros (? & [=] & _)].
Qed.

(** The loop succeeds exactly when every one of its bodies does. *)
Lemma body_loop_each jd codes acc pls :
  for_each (body_step swe jd) codes acc = Ok pls ->
  forall c, c ∈ codes -> exists pl, body_placement swe jd c = Ok pl.
Proof.
  revert acc. induction codes as [|c0 rest IH]; intros acc H c Hc.
  - inversion Hc.
  - rewrite for_each_cons in H.
    destruct (body_step swe jd acc c0) as [acc'|] eqn:Hs; [|discriminate]. cbn in H.
    apply body_step_Ok in Hs as (pl0 & Hpl0 & ->).
    inversion Hc; subst; eauto.
Qed.

Lemma body_loop_total jd codes acc :
  (forall c, c ∈ codes -> exists pl, body_placement swe jd c = Ok pl) ->
  exists pls, for_each (body_step swe jd) codes acc = Ok pls.
Proof.
  revert acc. induction codes as [|c0 rest IH]; intros acc H.
  - exists acc. reflexivity.
  - destruct (H c0) as [pl0 Hpl0]; [left|].
    rewrite for_each_cons.
    rewrite (proj2 (body_step_Ok jd acc c0 _) (ex_intro _ pl0 (conj Hpl0 eq_refl))). cbn.
    apply IH. intros c Hc. apply H. now right.
Qed.

(** The keys after the loop: the names of the bodies in order, when no
    name repeats. *)
Lemma body_loop_keys jd codes acc pls :
  for_each (body_step swe jd) codes acc = Ok pls ->
  NoDup (dict_keys acc ++ map name_of codes) ->
  dict_keys pls = (dict_keys acc ++ map name_of codes)%list.
Proof.
  revert acc. induction codes as [|c0 rest IH]; intros acc H Hnd.
  - injection H as <-. cbn. now rewrite app_nil_r.
  - rewrite for_each_cons in H.
    destruct (body_step swe jd acc c0) as [acc'|] eqn:Hs; [|discriminate]. cbn in H.
    apply body_step_Ok in Hs as (pl0 & Hpl0 & ->).
    cbn [map] in Hnd.
    destruct (dict_keys_set_fresh acc _ pl0 _ Hnd) as [E Hnd'].
    rewrite (IH _ H Hnd'), E, <- app_assoc. reflexivity.
Qed.

(** A key that names no body of the loop is left as it was. *)
Lemma body_loop_other jd codes acc pls k :
  for_each (body_step swe jd) codes acc = Ok pls ->
  k ∉ map name_of codes -> dict_get pls k = dict_get acc k.
Proof.
  revert acc. induction codes as [|c0 rest IH]; intros acc H Hk.
  - now injection H as <-.
  - rewrite for_each_cons in H.
    destruct (body_step swe jd acc c0) as [acc'|] eqn:Hs; [|discriminate]. cbn in H.
    apply body_step_Ok in Hs as (pl0 & Hpl0 & ->).
    rewrite (IH _ H) by (intros Hin; apply Hk; now right).
    apply dict_get_set_ne. intros ->. apply Hk. left.
Qed.

(** Under distinct names, each body's key holds the placement computed
    for that body. *)
Lemma body_loop_get jd codes acc pls c :
  for_each (body_step swe jd) codes acc = Ok pls ->
  NoDup (map name_of codes) -> c ∈ codes ->
  exists pl, body_placement swe jd c = Ok pl /\ dict_get pls (name_of c) = Some pl.
Proof.
  revert acc. induction codes as [|c0 rest IH]; intros acc H Hnd Hc.
  - inversion Hc.
  - rewrite for_each_cons in H.
    destruct (body_step swe jd acc c0) as [acc'|] eqn:Hs; [|discriminate]. cbn in H.
    apply body_step_Ok in Hs as (pl0 & Hpl0 & ->).
    cbn in Hnd. apply NoDup_cons in Hnd as [Hnotin Hnd].
    destruct (decide (c ∈ rest)) as [Hin|Hout].
    + eapply IH; eassumption.
    + assert (c = c0) as -> by (inversion Hc; subst; [reflexivity|contradiction]).
      exists pl0. split; [assumption|].
      rewrite (body_loop_other _ _ _ _ _ H Hnotin). apply dict_get_set_eq.
Qed.

Lemma body_loop_invariant jd codes acc pls :
  for_each (body_step swe jd) codes acc = Ok pls ->
  Forall retrograde_is_sign (map snd acc) -> Forall retrograde_is_sign (map snd pls).
Proof.
  revert acc. induction codes as [|c0 rest IH]; intros acc H Hacc.
  - now injection H as <-.
  - rewrite for_each_cons in H.
    destruct (body_step swe jd acc c0) as [acc'|] eqn:Hs; [|discriminate]. cbn in H.
    apply body_step_Ok in Hs as (pl0 & Hpl0 & ->).
    apply (IH _ H). apply dict_set_Forall; [assumption|].
    eapply body_placement_invariant; eassumption.
Qed.

(** The loop stops at the first body whose lookup fails. *)
Lemma body_loop_first_failure jd pre c post acc e :
  (forall c', c' ∈ pre -> exists pl, body_placement swe jd c' = Ok pl) ->
  calc_ut swe jd c = Raise e ->
  for_each (body_step swe jd) (pre ++ c :: post) acc =
    Raise (RuntimeError ("Failed to calculate " ++ name_of c ++ ": " ++ exn_str e)).
Proof.
  intros Hpre Hc. revert acc. induction pre as [|c0 pre IH]; intros acc.
  - cbn [app]. rewrite for_each_cons. unfold body_step.
    rewrite (body_placement_failure _ _ _ Hc). reflexivity.
  - cbn [app]. rewrite for_each_cons.
    destruct (Hpre c0) as [pl0 Hpl0]; [left|].
    rewrite (proj2 (body_step_Ok jd acc c0 _) (ex_intro _ pl0 (conj Hpl0 eq_refl))). cbn.
    apply IH. intros c' Hc'. apply Hpre. now right.
Qed.
(** The range test of the code accepts exactly the coordinates the
    specification calls valid. *)
Lemma coordinate_ok_range lo hi raw f :
  is_finite lo = true -> is_finite hi = true ->
  py_float py raw = Some f ->
  coordinate_ok py lo hi raw = ((lo <=? f) && (f <=? hi))%float.
Proof.
  intros Hlo Hhi Hf. unfold coordinate_ok. rewrite Hf.
  destruct ((lo <=? f) && (f <=? hi))%float eqn:E.
  - rewrite (between_finite lo hi f Hlo Hhi E). cbn. exact E.
  - rewrite <- andb_assoc, E. apply andb_false_r.
Qed.

Lemma coordinate_rejected lo hi raw :
  is_finite lo = true -> is_finite hi = true ->
  coordinate_ok py lo hi raw = false ->
  (f ← py_float py raw;
   if negb ((lo <=? f) && (f <=? hi))%float then None else Some f) = None.
Proof.
  intros Hlo Hhi H. destruct (py_float py raw) as [f|] eqn:Hf; [|reflexivity]. cbn.
  rewrite (coordinate_ok_range lo hi raw f Hlo Hhi Hf) in H. now rewrite H.
Qed.

Lemma build_chart_Ok_raw (p : gmap string pyval) (r : chart) :
  build_chart py swe p = Ok r <->
  exists dt lat lon jd pls cusps ascmc asc mc dc ic,
    _parse_datetime py (default (VStr "") (p !! "datetime_utc")) = Ok dt /\
    py_float py (payload_get p "latitude") = Some lat /\
    ((-90 <=? lat) && (lat <=? 90))%float = true /\
    py_float py (payload_get p "longitude") = Some lon /\
    ((-180 <=? lon) && (lon <=? 180))%float = true /\
    julday swe (year dt) (month dt) (day dt)
      (float_of_Z (hour dt) + int_truediv (minute dt) 60
       + int_truediv (second dt) 3600)%float = Ok jd /\
    for_each (body_step swe jd) bodies [] = Ok pls /\
    houses_ex swe jd lat lon "P" = Ok (cusps, ascmc) /\
    seq_index "tuple" ascmc 0 = Ok asc /\
    seq_index "tuple" ascmc 1 = Ok mc /\
    float_mod (asc + 180) 360 = Ok dc /\
    float_mod (mc + 180) 360 = Ok ic /\
    r = {| name := payload_get p "name";
           datetime_utc := strftime_iso_z py dt;
           latitude := lat; longitude := lon; julian_day := jd;
           placements := angle_store pls asc mc dc ic |}.
Proof.
  unfold build_chart, angle_store, fold_left. split.
  - destruct (_parse_datetime _) as [dt|] eqn:Hdt; [|discriminate]. cbn.
    destruct (py_float py (payload_get p "latitude")) as [lat|] eqn:Hlat;
      [|cbn; destruct (py_str py (payload_get p "latitude")); discriminate]. cbn.
    destruct ((-90 <=? lat) && (lat <=? 90))%float eqn:Hlr;
      [|cbn; destruct (py_str py (payload_get p "latitude")); discriminate]. cbn.
    destruct (py_float py (payload_get p "longitude")) as [lon|] eqn:Hlon;
      [|cbn; destruct (py_str py (payload_get p "longitude")); discriminate]. cbn.
    destruct ((-180 <=? lon) && (lon <=? 180))%float eqn:Hnr;
      [|cbn; destruct (py_str py (payload_get p "longitude")); discriminate]. cbn.
    destruct (julday swe _ _ _ _) as [jd|] eqn:Hjd; [|discriminate]. cbn.
    destruct (for_each _ _ _) as [pls|] eqn:Hpls; [|discriminate]. cbn.
    destruct (houses_ex swe jd lat lon "P") as [[cusps ascmc]|] eqn:Hh; [|discriminate]. cbn.
    destruct (seq_index "tuple" ascmc 0) as [asc|] eqn:Ha; [|discriminate]. cbn.
    destruct (seq_index "tuple" ascmc 1) as [mc|] eqn:Hm; [|discriminate]. cbn.
    destruct (float_mod (asc + 180) 360) as [dc|] eqn:Hdc; [|discriminate]. cbn.
    destruct (float_mod (mc + 180) 360) as [ic|] eqn:Hic; [|discriminate]. cbn.
    intros [= <-]. exists dt, lat, lon, jd, pls, cusps, ascmc, asc, mc, dc, ic.
    repeat split; assumption.
  - intros (dt & lat & lon & jd & pls & cusps & ascmc & asc & mc & dc & ic &
            Hdt & Hlat & Hlr & Hlon & Hnr & Hjd & Hpls & Hh & Ha & Hm & Hdc & Hic & ->).
    rewrite Hdt. cbn. rewrite Hlat. cbn. rewrite Hlr. cbn. rewrite Hlon. cbn.
    rewrite Hnr. cbn. rewrite Hjd. cbn. rewrite Hpls. cbn. rewrite Hh. cbn.
    rewrite Ha. cbn. rewrite Hm. cbn. rewrite Hdc. cbn. rewrite Hic. reflexivity.
Qed.

(** A successful build, read off statement by statement. *)
Lemma build_chart_Ok (p : gmap string pyval) (r : chart) :
  build_chart py swe p = Ok r <->
  exists dt lat lon jd pls cusps ascmc asc mc dc ic,
    validates py p dt lat lon /\
    julday swe (year dt) (month dt) (day dt) (fractional_hour dt) = Ok jd /\
    for_each (body_step swe jd) bodies [] = Ok pls /\
    houses_ex swe jd lat lon "P" = Ok (cusps, ascmc) /\
    ascmc !! 0%nat = Some asc /\ ascmc !! 1%nat = Some mc /\
    float_mod (asc + 180) 360 = Ok dc /\
    float_mod (mc + 180) 360 = Ok ic /\
    r = {| name := payload_get p "name";
           datetime_utc := strftime_iso_z py dt;
           latitude := lat; longitude := lon; julian_day := jd;
           placements := angle_store pls asc mc dc ic |}.
Proof.
  rewrite build_chart_Ok_raw. unfold validates, fractional_hour.
  split.
  - intros (dt & lat & lon & jd & pls & cusps & ascmc & asc & mc & dc & ic &
            Hdt & Hlat & Hlr & Hlon & Hnr & Hjd & Hpls & Hh & Ha & Hm & Hdc & Hic & ->).
    exists dt, lat, lon, jd, pls, cusps, ascmc, asc, mc, dc, ic.
    rewrite (coordinate_ok_range (-90) 90 _ lat eq_refl eq_refl Hlat).
    rewrite (coordinate_ok_range (-180) 180 _ lon eq_refl eq_refl Hlon).
    apply (seq_index_nonneg "tuple" ascmc 0) in Ha; [|lia].
    apply (seq_index_nonneg "tuple" ascmc 1) in Hm; [|lia].
    repeat split; assumption.
  - intros (dt & lat & lon & jd & pls & cusps & ascmc & asc & mc & dc & ic &
            (Hdt & Hlat & Hlr & Hlon & Hnr) & Hjd & Hpls & Hh & Ha & Hm & Hdc & Hic & ->).
    exists dt, lat, lon, jd, pls, cusps, ascmc, asc, mc, dc, ic.
    rewrite (coordinate_ok_range (-90) 90 _ lat eq_refl eq_refl Hlat) in Hlr.
    rewrite (coordinate_ok_range (-180) 180 _ lon eq_refl eq_refl Hlon) in Hnr.
    apply (seq_index_nonneg "tuple" ascmc 0) in Ha; [|lia].
    apply (seq_index_nonneg "tuple" ascmc 1) in Hm; [|lia].
    repeat split; assumption.
Qed.
End Build.

(** * Facts about the angle stores *)

Lemma angle_store_get pls asc mc dc ic :
  dict_get (angle_store pls asc mc dc ic) "Ascendant" = Some (angle_placement asc) /\
  dict_get (angle_store pls asc mc dc ic) "Midheaven" = Some (angle_placement mc) /\
  dict_get (angle_store pls asc mc dc ic) "Descendant" = Some (angle_placement dc) /\
  dict_get (angle_store pls asc mc dc ic) "IC" = Some (angle_placement ic).
Proof.
  unfold angle_store.
  repeat split;
    repeat first [ apply dict_get_set_eq | rewrite dict_get_set_ne by discriminate ].
Qed.

Lemma angle_store_other pls asc mc dc ic k :
  k ∉ angle_names -> dict_get (angle_store pls asc mc dc ic) k = dict_get pls k.
Proof.
  intros Hk. unfold angle_store.
  rewrite !dict_get_set_ne; [reflexivity|..];
    intros ->; apply Hk; unfold angle_names; set_solver.
Qed.

Lemma angle_store_keys pls asc mc dc ic :
  NoDup (dict_keys pls ++ angle_names) ->
  dict_keys (angle_store pls asc mc dc ic) = (dict_keys pls ++ angle_names)%list.
Proof.
  intros Hnd. unfold angle_store, angle_names in *.
  destruct (dict_keys_set_fresh pls "Ascendant" (angle_placement asc) _ Hnd) as [E1 H1].
  destruct (dict_keys_set_fresh _ "Midheaven" (angle_placement mc) _ H1) as [E2 H2].
  destruct (dict_keys_set_fresh _ "Descendant" (angle_placement dc) _ H2) as [E3 H3].
  destruct (dict_keys_set_fresh _ "IC" (angle_placement ic) _ H3) as [E4 _].
  rewrite E4, E3, E2, E1, <- !app_assoc. reflexivity.
Qed.

Lemma angle_store_invariant pls asc mc dc ic :
  Forall retrograde_is_sign (map snd pls) ->
  Forall retrograde_is_sign (map snd (angle_store pls asc mc dc ic)).
Proof.
  intros H. unfold angle_store.
  repeat (apply dict_set_Forall; [|reflexivity]). exact H.
Qed.

(** * Facts about indexing and unpacking *)

Lemma seq_index_from_end {A} what (pre post : list A) x :
  seq_index what (pre ++ x :: post)%list (- Z.of_nat (S (length post))) = Ok x.
Proof.
  unfold seq_index. cbv zeta. rewrite length_app. cbn [length].
  assert ((- Z.of_nat (S (length post)) <? 0) = true) as E by (apply Z.ltb_lt; lia).
  rewrite E.
  replace (- Z.of_nat (S (length post)) + Z.of_nat (length pre + S (length post)))
    with (Z.of_nat (length pre)) by lia.
  assert ((Z.of_nat (length pre) <? 0) = false) as E1 by (apply Z.ltb_ge; lia).
  assert ((Z.of_nat (length pre + S (length post)) <=? Z.of_nat (length pre)) = false)
    as E2 by (apply Z.leb_gt; lia).
  rewrite E1, E2, Nat2Z.id. cbn [orb].
  now rewrite list_lookup_middle.
Qed.

Lemma seq_index_last_four {A} what (pre : list A) a b c d :
  seq_index what (pre ++ [a; b; c; d])%list (-4) = Ok a /\
  seq_index what (pre ++ [a; b; c; d])%list (-3) = Ok b /\
  seq_index what (pre ++ [a; b; c; d])%list (-2) = Ok c /\
  seq_index what (pre ++ [a; b; c; d])%list (-1) = Ok d.
Proof.
  repeat split.
  - exact (seq_index_from_end what pre [b; c; d] a).
  - replace (pre ++ [a; b; c; d])%list with ((pre ++ [a]) ++ b :: [c; d])%list
      by now rewrite <- app_assoc.
    exact (seq_index_from_end what (pre ++ [a])%list [c; d] b).
  - replace (pre ++ [a; b; c; d])%list with ((pre ++ [a; b]) ++ c :: [d])%list
      by now rewrite <- app_assoc.
    exact (seq_index_from_end what (pre ++ [a; b])%list [d] c).
  - replace (pre ++ [a; b; c; d])%list with ((pre ++ [a; b; c]) ++ d :: [])%list
      by now rewrite <- app_assoc.
    exact (seq_index_from_end what (pre ++ [a; b; c])%list [] d).
Qed.

Lemma seq_index_first_four {A} what (a b c d : A) rest :
  seq_index what (a :: b :: c :: d :: rest) 0 = Ok a /\
  seq_index what (a :: b :: c :: d :: rest) 1 = Ok b /\
  seq_index what (a :: b :: c :: d :: rest) 2 = Ok c /\
  seq_index what (a :: b :: c :: d :: rest) 3 = Ok d.
Proof. repeat split; (apply seq_index_nonneg; [lia|reflexivity]). Qed.

Lemma py_getitem_pair_0 (data status : pyval) :
  py_getitem (VTuple [data; status]) 0 = Ok data.
Proof. apply (seq_index_nonneg "tuple"); [lia|reflexivity]. Qed.

Lemma py_lt_zero_neg (v : pyval) (b : bool) :
  has_sign v = true -> py_lt_zero v = Ok b -> py_lt_zero (py_neg v) = Ok (negb b).
Proof.
  destruct v as [| |z|f| | | |]; cbn; try discriminate.
  - intros Hz [= <-]. f_equal.
    destruct (Z.ltb_spec z 0), (Z.ltb_spec (- z) 0), (Z.eqb_spec z 0);
      cbn in *; try reflexivity; try discriminate; lia.
  - intros Hs [= <-]. now rewrite ltb_zero_opp.
Qed.

(** * Facts about validation and the outcome of the build *)

(** Past validation and the Julian Day, an exception of the body loop is
    the outcome of the build. *)
Lemma build_chart_loop_raise py swe (p : gmap string pyval) dt lat lon jd e :
  validates py p dt lat lon ->
  julday swe (year dt) (month dt) (day dt) (fractional_hour dt) = Ok jd ->
  for_each (body_step swe jd) bodies [] = Raise e ->
  build_chart py swe p = Raise e.
Proof.
  intros (Hdt & Hlat & Hlr & Hlon & Hnr) Hjd Hloop.
  rewrite (coordinate_ok_range py (-90) 90 _ lat eq_refl eq_refl Hlat) in Hlr.
  rewrite (coordinate_ok_range py (-180) 180 _ lon eq_refl eq_refl Hlon) in Hnr.
  unfold build_chart, fractional_hour in *.
  rewrite Hdt. cbn. rewrite Hlat. cbn. rewrite Hlr. cbn. rewrite Hlon. cbn.
  rewrite Hnr. cbn. rewrite Hjd. cbn. rewrite Hloop. reflexivity.
Qed.

(** What the documented format reads, every interpreter reads. *)
Lemma fromisoformat_read py (s : string) (d : datetime) :
  fromisoformat s = Some d -> datetime_fromisoformat py s = Some d.
Proof. unfold datetime_fromisoformat. now intros ->. Qed.

Lemma _parse_datetime_raises py (v : pyval) (e : exn) :
  _parse_datetime py v = Raise e -> exists msg, e = ValueError msg.
Proof.
  unfold _parse_datetime.
  destruct v; try (intros [= <-]; eauto).
  destruct (datetime_fromisoformat _ _); [discriminate|]. intros [= <-]. eauto.
Qed.

(** Induction on a value and, for a tuple or a list, on its items. *)
Lemma pyval_nested_ind (P : pyval -> Prop) :
  P VNone -> (forall b, P (VBool b)) -> (forall z, P (VInt z)) ->
  (forall f, P (VFloat f)) -> (forall s, P (VStr s)) -> (forall d, P (VDatetime d)) ->
  (forall items, Forall P items -> P (VTuple items)) ->
  (forall items, Forall P items -> P (VList items)) ->
  forall v, P v.
Proof.
  intros HN HB HI HF HS HD HT HL. fix IH 1.
  intros [|b|z|f|s|d|items|items];
    [exact HN|apply HB|apply HI|apply HF|apply HS|apply HD| |].
  - apply HT. induction items as [|x items IHitems]; constructor; [apply IH|exact IHitems].
  - apply HL. induction items as [|x items IHitems]; constructor; [apply IH|exact IHitems].
Qed.

(** Printing a value raises nothing but the [ValueError] of the digit
    limit. *)
Lemma int_str_raises py z e :
  int_str py z = Raise e -> e = ValueError (digit_limit_message (int_max_str_digits py)).
Proof.
  unfold int_str. cbv zeta. destruct (_ && _); [|discriminate]. now intros [= <-].
Qed.

Lemma mapM_raises {A B} (f : A -> res B) (l : list A) e :
  mapM f l = Raise e -> exists x, x ∈ l /\ f x = Raise e.
Proof.
  induction l as [|x l IH]; cbn; [discriminate|].
  destruct (f x) as [y|e'] eqn:Hx; cbn.
  - destruct (mapM f l) as [ys|e'']; cbn; [discriminate|].
    intros [= <-]. destruct (IH eq_refl) as (x' & Hin & Hx'). exists x'. split; [now right|exact Hx'].
  - intros [= <-]. exists x. split; [now left|exact Hx].
Qed.

Lemma py_repr_raises py v e :
  py_repr py v = Raise e -> e = ValueError (digit_limit_message (int_max_str_digits py)).
Proof.
  revert e. induction v as [|b|z|f|s|d|items IH|items IH] using pyval_nested_ind;
    intros e; cbn [py_repr]; try discriminate.
  - destruct b; discriminate.
  - apply int_str_raises.
  - destruct (mapM (py_repr py) items) as [texts|e'] eqn:Hm; cbn; [discriminate|].
    intros [= <-]. destruct (mapM_raises _ _ _ Hm) as (x & Hin & Hx).
    rewrite Forall_forall in IH. exact (IH x Hin _ Hx).
  - destruct (mapM (py_repr py) items) as [texts|e'] eqn:Hm; cbn; [discriminate|].
    intros [= <-]. destruct (mapM_raises _ _ _ Hm) as (x & Hin & Hx).
    rewrite Forall_forall in IH. exact (IH x Hin _ Hx).
Qed.

Lemma py_str_raises py v e :
  py_str py v = Raise e -> e = ValueError (digit_limit_message (int_max_str_digits py)).
Proof.
  unfold py_str. destruct v; try discriminate; apply py_repr_raises.
Qed.

Lemma coordinate_ok_true py lo hi raw :
  is_finite lo = true -> is_finite hi = true ->
  coordinate_ok py lo hi raw = true ->
  exists f, py_float py raw = Some f /\ ((lo <=? f) && (f <=? hi))%float = true.
Proof.
  intros Hlo Hhi H. destruct (py_float py raw) as [f|] eqn:Hf.
  - exists f. split; [reflexivity|].
    now rewrite <- (coordinate_ok_range py lo hi raw f Hlo Hhi Hf).
  - unfold coordinate_ok in H. rewrite Hf in H. discriminate.
Qed.

(** With a datetime that parses, the first coordinate that fails its
    check decides the outcome: its except clause prints the raw value and
    raises the message with it. *)
Lemma coordinate_messages py swe (p : gmap string pyval) dt :
  _parse_datetime py (default (VStr "") (p !! "datetime_utc")) = Ok dt ->
  (coordinate_ok py (-90) 90 (payload_get p "latitude") = false ->
   build_chart py swe p =
     (raw ← py_str py (payload_get p "latitude");
      Raise (ValueError ("Latitude must be between -90 and 90. Got: " ++ raw ++ ".")))) /\
  (coordinate_ok py (-90) 90 (payload_get p "latitude") = true ->
   coordinate_ok py (-180) 180 (payload_get p "longitude") = false ->
   build_chart py swe p =
     (raw ← py_str py (payload_get p "longitude");
      Raise (ValueError ("Longitude must be between -180 and 180. Got: " ++ raw ++ ".")))).
Proof.
  intros Hdt. split.
  - intros Hbad. unfold build_chart. rewrite Hdt. cbn.
    rewrite (coordinate_rejected py (-90) 90 _ eq_refl eq_refl Hbad).
    destruct (py_str py (payload_get p "latitude")); reflexivity.
  - intros (lat & Hlat & Hlr)%coordinate_ok_true Hbad; [|reflexivity..].
    unfold build_chart. rewrite Hdt. cbn. rewrite Hlat. cbn. rewrite Hlr. cbn.
    rewrite (coordinate_rejected py (-180) 180 _ eq_refl eq_refl Hbad).
    destruct (py_str py (payload_get p "longitude")); reflexivity.
Qed.

(** The except clause of a coordinate check raises a [ValueError], whether
    the raw value prints or not. *)
Lemma coordinate_except_raises py (prefix : string) (raw : pyval) :
  exists msg,
    (text ← py_str py raw; Raise (ValueError (prefix ++ text ++ "."))) =
    (Raise (ValueError msg) : res chart).
Proof.
  destruct (py_str py raw) as [text|e] eqn:Hs; cbn; [eauto|].
  rewrite (py_str_raises py raw e Hs). eauto.
Qed.

(** From 1000 to 9999 the year prints in four digits with or without
    zero-filling (checked year by year). *)
Lemma zero_pad_year (y : Z) : 1000 <= y <= 9999 -> zero_pad 1 y = zero_pad 4 y.
Proof.
  intros Hy.
  assert (forallb (fun n => String.eqb (zero_pad 1 (1000 + Z.of_nat n))
                                       (zero_pad 4 (1000 + Z.of_nat n)))
            (seq 0 (Z.to_nat 9000)) = true) as Hall by (vm_compute; reflexivity).
  rewrite forallb_forall in Hall.
  specialize (Hall (Z.to_nat (y - 1000))).
  replace (1000 + Z.of_nat (Z.to_nat (y - 1000))) with y in Hall by lia.
  apply String.eqb_eq, Hall, in_seq. lia.
Qed.

(** * Which exceptions leave the build once validation has passed *)

Lemma seq_index_raise {A} what (l : list A) i e :
  seq_index what l i = Raise e -> is_value_error e = false.
Proof.
  unfold seq_index. cbv zeta. destruct (_ || _); [intros [= <-]; reflexivity|].
  destruct (l !! _); [discriminate|intros [= <-]; reflexivity].
Qed.

Lemma py_getitem_raise v i e : py_getitem v i = Raise e -> is_value_error e = false.
Proof.
  destruct v; cbn; try (intros [= <-]; reflexivity); try apply seq_index_raise.
  destruct (seq_index _ _ _) eqn:H; cbn; [discriminate|].
  intros [= <-]. exact (seq_index_raise _ _ _ _ H).
Qed.

Lemma bind_raise {A B} (m : res A) (k : A -> res B) e :
  (m ≫= k) = Raise e -> m = Raise e \/ exists a, m = Ok a /\ k a = Raise e.
Proof. destruct m as [a|e']; cbn; intros H; [right; exists a; auto|left; now injection H as ->]. Qed.

Lemma unpack_result_raise result e :
  unpack_result result = Raise e -> is_value_error e = false.
Proof.
  unfold unpack_result. destruct (is_tuple_of_two result); intros H;
    repeat (apply bind_raise in H as [H|(? & _ & H)];
            [exact (py_getitem_raise _ _ _ H)|]);
    discriminate H.
Qed.

Lemma py_lt_zero_raise v e : py_lt_zero v = Raise e -> is_value_error e = false.
Proof. destruct v; cbn; intros [= <-]; reflexivity. Qed.

Lemma body_placement_raise swe jd c e :
  body_placement swe jd c = Raise e -> is_value_error e = false.
Proof.
  unfold body_placement. intros H.
  apply bind_raise in H as [H|(result & _ & H)].
  { destruct (calc_ut swe jd c); [discriminate|]. cbn in H. now injection H as <-. }
  apply bind_raise in H as [H|([[[lon lat] dist] sp] & _ & H)].
  { exact (unpack_result_raise _ _ H). }
  apply bind_raise in H as [H|(b & _ & H)]; [|discriminate].
  exact (py_lt_zero_raise _ _ H).
Qed.

Lemma body_loop_raise swe jd codes acc e :
  for_each (body_step swe jd) codes acc = Raise e -> is_value_error e = false.
Proof.
  revert acc. induction codes as [|c0 rest IH]; intros acc H; [discriminate|].
  rewrite for_each_cons in H. apply bind_raise in H as [H|(acc' & _ & H)]; [|eauto].
  unfold body_step in H. apply bind_raise in H as [H|(pl & _ & H)]; [|discriminate].
  exact (body_placement_raise _ _ _ _ H).
Qed.

Lemma build_chart_validated_raise py swe (p : gmap string pyval) dt lat lon e :
  validates py p dt lat lon ->
  build_chart py swe p = Raise e -> is_value_error e = false.
Proof.
  intros (Hdt & Hlat & Hlr & Hlon & Hnr).
  rewrite (coordinate_ok_range py (-90) 90 _ lat eq_refl eq_refl Hlat) in Hlr.
  rewrite (coordinate_ok_range py (-180) 180 _ lon eq_refl eq_refl Hlon) in Hnr.
  unfold build_chart.
  rewrite Hdt. cbn. rewrite Hlat. cbn. rewrite Hlr. cbn. rewrite Hlon. cbn.
  rewrite Hnr. cbn. intros H.
  apply bind_raise in H as [H|(jd & _ & H)].
  { destruct (julday swe _ _ _ _); [discriminate|]. cbn in H. now injection H as <-. }
  apply bind_raise in H as [H|(pls & _ & H)].
  { exact (body_loop_raise _ _ _ _ _ H). }
  apply bind_raise in H as [H|([[[asc mc] dc] ic] & _ & H)]; [|discriminate].
  unfold try_except in H.
  destruct (_ ≫= _) in H; [discriminate|]. now injection H as <-.
Qed.

(** * The model on concrete inputs *)

Example fromisoformat_accepts :
  fromisoformat "2024-03-20T03:06:00" = Some (mk_datetime 2024 3 20 3 6 0 0 None) /\
  fromisoformat "2024-03-20" = Some (mk_datetime 2024 3 20 0 0 0 0 None) /\
  fromisoformat "2024-03-20 03:06:00.250" = Some (mk_datetime 2024 3 20 3 6 0 250000 None) /\
  fromisoformat "2024-03-20T03:06:00-05:30"
    = Some (mk_datetime 2024 3 20 3 6 0 0 (Some (-19800000000))).
Proof. repeat split; vm_compute; reflexivity. Qed.

Example fromisoformat_rejects :
  fromisoformat "not-a-date" = None /\
  fromisoformat "" = None /\
  fromisoformat "2024-02-30T03:06:00" = None /\
  fromisoformat "2024-03-20T24:00:00" = None /\
  fromisoformat "2024-03-20T03:06:00+25:00" = None.
Proof. repeat split; vm_compute; reflexivity. Qed.

Example parse_datetime_malformed :
  _parse_datetime interp_stub (VStr "not-a-date")
    = Raise (ValueError "Invalid datetime_utc: 'not-a-date'. Use 'YYYY-MM-DDTHH:MM:SSZ'.") /\
  _parse_datetime interp_stub VNone
    = Raise (ValueError
        "datetime_utc must be an ISO8601 string ending in 'Z' or a datetime instance.").
Proof. split; vm_compute; reflexivity. Qed.

(** Printing: ints, a list, an int of 4301 digits and a list that holds
    an int of 5001. *)
Example py_str_examples :
  py_str interp_stub (VInt (-181)) = Ok "-181" /\
  py_str interp_stub VNone = Ok "None" /\
  py_str interp_stub (VList [VInt 1; VBool true; VTuple [VInt 2]]) = Ok "[1, True, (2,)]" /\
  py_str interp_stub (VInt (- 10 ^ 4300)) = Raise (ValueError (digit_limit_message 4300)) /\
  py_str interp_stub (VList [VInt 1; VInt (10 ^ 5000)])
    = Raise (ValueError (digit_limit_message 4300)) /\
  digit_limit_message 4300
    = "Exceeds the limit (4300 digits) for integer string conversion; use sys.set_int_max_str_digits() to increase the limit".
Proof.
  split; [vm_compute; reflexivity|]. split; [vm_compute; reflexivity|].
  split; [vm_compute; reflexivity|]. split; [vm_compute; reflexivity|].
  split; vm_compute; reflexivity.
Qed.

Example missing_datetime_is_rejected (py : Interp) (swe : Swe) :
  build_chart py swe ∅
    = Raise (ValueError "Invalid datetime_utc: ''. Use 'YYYY-MM-DDTHH:MM:SSZ'.").
Proof. reflexivity. Qed.

Example float_mod_examples :
  float_mod 530.5 360 = Ok 170.5%float /\
  float_mod (-10) 360 = Ok 350%float /\
  float_mod (-725.5) 360 = Ok 354.5%float /\
  float_mod 360 360 = Ok 0%float /\
  float_mod 123456789.125 360 = Ok 189.125%float.
Proof. repeat split; vm_compute; reflexivity. Qed.

(** [3 + 6/60 + 0/3600] is the float that prints as [3.1]. *)
Example fractional_hour_example :
  fractional_hour (mk_datetime 2024 3 20 3 6 0 0 None) = 0x1.8cccccccccccdp+1%float.
Proof. vm_compute. reflexivity. Qed.

(** The year below 1000, without and with zero-filling. *)
Example strftime_year_below_1000 :
  strftime_iso_z interp_stub (mk_datetime 999 3 20 3 6 0 0 None) = "999-03-20T03:06:00Z" /\
  strftime_iso_z {| float_of_str := fun _ => None; str_other := fun _ => "";
                    repr_other := fun _ => ""; int_max_str_digits := 4300;
                    fromisoformat_other := fun _ => None; year_zero_filled := true |}
    (mk_datetime 999 3 20 3 6 0 0 None) = "0999-03-20T03:06:00Z".
Proof. split; vm_compute; reflexivity. Qed.

(** * Reading back the datetime of a result *)

Lemma digit_not_sign (c : ascii) :
  is_digit c = true -> (c =? "+")%char || (c =? "-")%char = false.
Proof. destruct c as [[] [] [] [] [] [] [] []]; vm_compute; congruence. Qed.

Lemma split_at_sign_none (cs : list ascii) :
  Forall (fun c => (c =? "+")%char || (c =? "-")%char = false) cs ->
  split_at_sign cs = (cs, None).
Proof.
  induction 1 as [|c cs Hc _ IH]; [reflexivity|].
  cbn. rewrite Hc, IH. reflexivity.
Qed.

(** Two-digit and four-digit fields read back as the number printed
    (checked number by number). *)
Lemma zero_pad_2_reads_back (n : Z) :
  0 <= n <= 99 ->
  exists a b,
    zero_pad 2 n = String a (String b EmptyString) /\
    is_digit a = true /\ is_digit b = true /\ parse_digits 2 [a; b] = Some n.
Proof.
  intros Hn.
  assert (forallb
            (fun k =>
               match list_ascii_of_string (zero_pad 2 (Z.of_nat k)) with
               | [a; b] =>
                   is_digit a && is_digit b
                   && bool_decide (parse_digits 2 [a; b] = Some (Z.of_nat k))
               | _ => false
               end)
            (seq 0 (Z.to_nat 100)) = true) as Hall by (vm_compute; reflexivity).
  rewrite forallb_forall in Hall.
  specialize (Hall (Z.to_nat n)). rewrite Z2Nat.id in Hall by lia.
  specialize (Hall ltac:(apply in_seq; lia)).
  destruct (zero_pad 2 n) as [|a [|b [|c s]]]; cbn in Hall; try discriminate.
  apply andb_prop in Hall as [[Ha Hb]%andb_prop Hp].
  exists a, b. repeat split; try assumption. exact (bool_decide_eq_true_1 _ Hp).
Qed.

Lemma zero_pad_4_reads_back (n : Z) :
  0 <= n <= 9999 ->
  exists a b c d,
    zero_pad 4 n = String a (String b (String c (String d EmptyString))) /\
    parse_digits 4 [a; b; c; d] = Some n.
Proof.
  intros Hn.
  assert (forallb
            (fun k =>
               match list_ascii_of_string (zero_pad 4 (Z.of_nat k)) with
               | [a; b; c; d] => bool_decide (parse_digits 4 [a; b; c; d] = Some (Z.of_nat k))
               | _ => false
               end)
            (seq 0 (Z.to_nat 10000)) = true) as Hall by (vm_compute; reflexivity).
  rewrite forallb_forall in Hall.
  specialize (Hall (Z.to_nat n)). rewrite Z2Nat.id in Hall by lia.
  specialize (Hall ltac:(apply in_seq; lia)).
  destruct (zero_pad 4 n) as [|a [|b [|c [|d [|e s]]]]]; cbn in Hall; try discriminate.
  exists a, b, c, d. split; [reflexivity|]. exact (bool_decide_eq_true_1 _ Hall).
Qed.

Lemma parse_isoformat_date_digits y1 y2 y3 y4 m1 m2 d1 d2 y m d :
  parse_digits 4 [y1; y2; y3; y4] = Some y ->
  parse_digits 2 [m1; m2] = Some m ->
  parse_digits 2 [d1; d2] = Some d ->
  parse_isoformat_date [y1; y2; y3; y4; "-"%char; m1; m2; "-"%char; d1; d2] = Some (y, m, d).
Proof.
  intros Hy Hm Hd. unfold parse_isoformat_date.
  cbn [take drop]. rewrite Hy, Hm, Hd. reflexivity.
Qed.

Lemma parse_hh_mm_ss_digits h1 h2 m1 m2 s1 s2 h m s :
  parse_digits 2 [h1; h2] = Some h ->
  parse_digits 2 [m1; m2] = Some m ->
  parse_digits 2 [s1; s2] = Some s ->
  parse_hh_mm_ss_ff [h1; h2; ":"%char; m1; m2; ":"%char; s1; s2] = Some (h, m, s, 0).
Proof.
  intros Hh Hm Hs. unfold parse_hh_mm_ss_ff.
  cbn [take drop]. rewrite Hh. cbn. rewrite Hm. cbn. rewrite Hs. reflexivity.
Qed.

Lemma days_in_month_le y m : days_in_month y m <= 31.
Proof. unfold days_in_month. repeat destruct (_ : bool); lia. Qed.

Lemma datetime_fields_ranges dt :
  datetime_fields_ok dt = true ->
  1 <= year dt <= 9999 /\ 1 <= month dt <= 12 /\ 1 <= day dt <= 31 /\
  0 <= hour dt <= 23 /\ 0 <= minute dt <= 59 /\ 0 <= second dt <= 59.
Proof.
  unfold datetime_fields_ok. rewrite !andb_true_iff, !Z.leb_le.
  pose proof (days_in_month_le (year dt) (month dt)). lia.
Qed.

Lemma datetime_fields_ok_to_second dt :
  datetime_fields_ok dt = true ->
  datetime_fields_ok
    (mk_datetime (year dt) (month dt) (day dt) (hour dt) (minute dt) (second dt) 0 None)
  = true.
Proof.
  unfold datetime_fields_ok. cbn [year month day hour minute second microsecond tzinfo].
  rewrite !andb_true_iff, !Z.leb_le. lia.
Qed.

Lemma canonical_reparses py dt :
  datetime_fields_ok dt = true ->
  year_zero_filled py = true \/ 1000 <= year dt ->
  _parse_datetime py (VStr (strftime_iso_z py dt))
  = Ok (mk_datetime (year dt) (month dt) (day dt) (hour dt) (minute dt) (second dt) 0 None).
Proof.
  intros Hok Hyear.
  destruct (datetime_fields_ranges dt Hok) as (Ry & Rm & Rd & Rh & Ri & Rs).
  assert (zero_pad (if year_zero_filled py then 4 else 1) (year dt) = zero_pad 4 (year dt)) as Hy4.
  { destruct (year_zero_filled py); [reflexivity|]. apply zero_pad_year.
    destruct Hyear as [|]; [discriminate|lia]. }
  destruct (zero_pad_4_reads_back (year dt)) as (y1 & y2 & y3 & y4 & Ey & Py); [lia|].
  destruct (zero_pad_2_reads_back (month dt)) as (m1 & m2 & Em & _ & _ & Pm); [lia|].
  destruct (zero_pad_2_reads_back (day dt)) as (d1 & d2 & Ed & _ & _ & Pd); [lia|].
  destruct (zero_pad_2_reads_back (hour dt)) as (h1 & h2 & Eh & Dh1 & Dh2 & Ph); [lia|].
  destruct (zero_pad_2_reads_back (minute dt)) as (i1 & i2 & Ei & Di1 & Di2 & Pi); [lia|].
  destruct (zero_pad_2_reads_back (second dt)) as (s1 & s2 & Es & Ds1 & Ds2 & Ps); [lia|].
  unfold strftime_iso_z. rewrite Hy4, Ey, Em, Ed, Eh, Ei, Es.
  change (_parse_datetime py (VStr (String y1 (String y2 (String y3 (String y4 (String "-"
            (String m1 (String m2 (String "-" (String d1 (String d2 (String "T"
            (String h1 (String h2 (String ":" (String i1 (String i2 (String ":"
            (String s1 (String s2 "Z"))))))))))))))))))))
          = Ok (mk_datetime (year dt) (month dt) (day dt) (hour dt) (minute dt) (second dt) 0 None)).
  unfold _parse_datetime.
  change (ends_with_Z _) with true. cbv iota.
  change (drop_last _) with
    (String y1 (String y2 (String y3 (String y4 (String "-"
      (String m1 (String m2 (String "-" (String d1 (String d2 (String "T"
      (String h1 (String h2 (String ":" (String i1 (String i2 (String ":"
      (String s1 (String s2 ""))))))))))))))))))).
  unfold datetime_fromisoformat, fromisoformat. cbv zeta.
  cbn [list_ascii_of_string take drop].
  rewrite (parse_isoformat_date_digits _ _ _ _ _ _ _ _ _ _ _ Py Pm Pd). cbn.
  unfold parse_isoformat_time.
  rewrite split_at_sign_none.
  2:{ repeat constructor; try reflexivity; now apply digit_not_sign. }
  rewrite (parse_hh_mm_ss_digits _ _ _ _ _ _ _ _ _ Ph Pi Ps). cbn.
  rewrite (datetime_fields_ok_to_second dt Hok). reflexivity.
Qed.

Lemma fromisoformat_fields_ok (s : string) (d : datetime) :
  fromisoformat s = Some d -> datetime_fields_ok d = true.
Proof.
  unfold fromisoformat. cbv zeta.
  destruct (parse_isoformat_date _) as [[[y m] dd]|]; [|discriminate]. cbn.
  destruct (match drop 10 _ with [] => _ | _ :: _ => _ end)
    as [[[[[hh mm] ss] us] tz]|]; [|discriminate]. cbn.
  destruct (datetime_fields_ok _) eqn:Hok; [|discriminate]. now intros [= <-].
Qed.

(** * Answers of the provider that the build can read *)

Lemma list_last_four {A} (l : list A) :
  (4 <= length l)%nat -> exists pre a b c d, l = (pre ++ [a; b; c; d])%list.
Proof.
  intros Hlen. exists (take (length l - 4) l).
  pose proof (length_drop l (length l - 4)) as HL.
  destruct (drop (length l - 4) l) as [|a [|b [|c [|d [|e rest]]]]] eqn:E;
    cbn in HL; try lia.
  exists a, b, c, d. rewrite <- E. symmetry. apply take_drop.
Qed.

Lemma unpack_result_direct (result : pyval) (l pre : list pyval) a b c d :
  result = VTuple l \/ result = VList l ->
  l = (pre ++ [a; b; c; d])%list ->
  unpack_result result = Ok (a, b, c, d).
Proof.
  intros Hshape ->.
  destruct (seq_index_last_four "tuple" pre a b c d) as (Ta & Tb & Tc & Td).
  destruct (seq_index_last_four "list" pre a b c d) as (La & Lb & Lc & Ld).
  unfold unpack_result.
  destruct Hshape as [-> | ->].
  - assert (is_tuple_of_two (VTuple (pre ++ [a; b; c; d])) = false) as ->.
    { cbn. rewrite length_app. cbn. apply Nat.eqb_neq. lia. }
    cbn [py_getitem]. rewrite Ta, Tb, Tc, Td. reflexivity.
  - cbn [is_tuple_of_two py_getitem]. rewrite La, Lb, Lc, Ld. reflexivity.
Qed.

Lemma unpack_result_wrapped (data status : pyval) (l : list pyval) a b c d rest :
  data = VTuple l \/ data = VList l ->
  l = a :: b :: c :: d :: rest ->
  unpack_result (VTuple [data; status]) = Ok (a, b, c, d).
Proof.
  intros Hshape ->.
  destruct (seq_index_first_four "tuple" a b c d rest) as (Ta & Tb & Tc & Td).
  destruct (seq_index_first_four "list" a b c d rest) as (La & Lb & Lc & Ld).
  unfold unpack_result. cbn [is_tuple_of_two length Nat.eqb].
  rewrite py_getitem_pair_0. cbn.
  destruct Hshape as [-> | ->]; cbn [py_getitem].
  - rewrite Ta, Tb, Tc, Td. reflexivity.
  - rewrite La, Lb, Lc, Ld. reflexivity.
Qed.

(** A usable answer unpacks, and its speed compares with [0]. *)
Lemma usable_answer_unpacks (result : pyval) :
  usable_answer result = true ->
  exists lo la di sp retro,
    unpack_result result = Ok (lo, la, di, sp) /\ answer_speed result = Some sp /\
    py_lt_zero sp = Ok retro.
Proof.
  unfold usable_answer.
  destruct (answer_speed result) as [sp|] eqn:Hsp; [|discriminate].
  intros Hnum.
  assert (exists retro, py_lt_zero sp = Ok retro) as [retro Hretro].
  { destruct sp; try discriminate; cbn; eauto. }
  assert (forall l, result = VTuple l \/ result = VList l ->
            (if (4 <=? length l)%nat then last l else None) = Some sp ->
            exists lo la di, unpack_result result = Ok (lo, la, di, sp)) as Hdirect.
  { intros l Hshape Hl.
    destruct (4 <=? length l)%nat eqn:Hlen; [|discriminate].
    apply Nat.leb_le in Hlen.
    destruct (list_last_four l Hlen) as (pre & a & b & c & d & El).
    assert (d = sp) as <-.
    { rewrite El in Hl. replace (pre ++ [a; b; c; d])%list with ((pre ++ [a; b; c]) ++ [d])%list in Hl
        by now rewrite <- app_assoc.
      rewrite last_snoc in Hl. now injection Hl. }
    exists a, b, c. exact (unpack_result_direct result l pre a b c d Hshape El). }
  assert (forall data status l, result = VTuple [data; status] ->
            data = VTuple l \/ data = VList l -> l !! 3%nat = Some sp ->
            exists lo la di, unpack_result result = Ok (lo, la, di, sp)) as Hwrapped.
  { intros data status l -> Hshape Hl.
    destruct l as [|a [|b [|c [|d rest]]]]; try discriminate.
    cbn in Hl. injection Hl as ->.
    exists a, b, c. exact (unpack_result_wrapped data status _ a b c sp rest Hshape eq_refl). }
  assert (exists lo la di, unpack_result result = Ok (lo, la, di, sp)) as (lo & la & di & Hun).
  { destruct result as [| | | | | |items|items]; try discriminate.
    - destruct items as [|x [|y [|z rest]]].
      + discriminate.
      + destruct x; discriminate.
      + destruct x as [| | | | | |data|data]; try discriminate.
        * apply (Hwrapped (VTuple data) y data); [reflexivity|now left|exact Hsp].
        * apply (Hwrapped (VList data) y data); [reflexivity|now right|exact Hsp].
      + destruct x; (eapply Hdirect; [left; reflexivity|exact Hsp]).
    - apply (Hdirect items); [now right|exact Hsp]. }
  exists lo, la, di, sp, retro. auto.
Qed.

Lemma usable_answer_placement swe jd c result :
  calc_ut swe jd c = Ok result -> usable_answer result = true ->
  exists pl, body_placement swe jd c = Ok pl.
Proof.
  intros Hcalc (lo & la & di & sp & retro & Hun & _ & Hlt)%usable_answer_unpacks.
  unfold body_placement. rewrite Hcalc. cbn. rewrite Hun. cbn. rewrite Hlt. cbn. eauto.
Qed.

(** * The properties *)

(** C1 (amended).  When the provider's thirteen display names
    are pairwise distinct and none is an angle name, every successful
    build returns a placements mapping with exactly 17 keys: the provider's
    name of each body, in the order of the body list, followed by
    Ascendant, Midheaven, Descendant, IC; and a request that passes
    validation does return a result whenever every provider call succeeds
    with an answer the builder can read: a Julian Day, for each body four
    values or more with a number for the speed (the last value of a direct
    answer, the fourth of the data of a pair), and two angles or more. *)
Theorem placements_keys_fixed_order (py : Interp) (swe : Swe) (p : gmap string pyval) :
  NoDup (map (get_planet_name swe) bodies ++ angle_names) ->
  (forall r, build_chart py swe p = Ok r ->
     dict_keys (placements r) = (map (get_planet_name swe) bodies ++ angle_names)%list /\
     length (placements r) = 17%nat) /\
  (forall dt lat lon,
     validates py p dt lat lon -> provider_succeeds swe dt lat lon ->
     exists r, build_chart py swe p = Ok r).
Proof.
  intros Hnd. split.
  - intros r (dt & lat & lon & jd & pls & cusps & ascmc & asc & mc & dc & ic &
              _ & _ & Hpls & _ & _ & _ & _ & _ & ->)%build_chart_Ok.
    cbn [placements].
    assert (dict_keys pls = map (get_planet_name swe) bodies) as Hk.
    { apply (body_loop_keys swe jd bodies [] pls Hpls). cbn [dict_keys map app].
      now apply NoDup_app in Hnd as (? & _ & _). }
    assert (dict_keys (angle_store pls asc mc dc ic)
            = (map (get_planet_name swe) bodies ++ angle_names)%list) as Hkeys.
    { rewrite angle_store_keys; rewrite Hk; [reflexivity|assumption]. }
    split; [exact Hkeys|].
    rewrite <- (length_map fst). fold (dict_keys (angle_store pls asc mc dc ic)).
    rewrite Hkeys. reflexivity.
  - intros dt lat lon Hv (jd & Hjd & Hanswers & cusps & ascmc & Hh & Hlen).
    assert (forall c, c ∈ bodies -> exists pl, body_placement swe jd c = Ok pl) as Hbodies.
    { intros c Hc. destruct (Hanswers c Hc) as (result & Hcalc & Huse).
      exact (usable_answer_placement swe jd c result Hcalc Huse). }
    destruct (body_loop_total swe jd bodies [] Hbodies) as [pls Hpls].
    destruct ascmc as [|asc [|mc rest]]; [cbn in Hlen; lia..|].
    destruct (float_mod_360_Ok (asc + 180)) as [dc Hdc].
    destruct (float_mod_360_Ok (mc + 180)) as [ic Hic].
    eexists. apply build_chart_Ok.
    exists dt, lat, lon, jd, pls, cusps, (asc :: mc :: rest), asc, mc, dc, ic.
    repeat split; try eassumption; try reflexivity; apply Hv.
Qed.

Lemma placements_keys_fixed_order_witness :
  exists r,
    build_chart interp_stub (swe_stub 0.5 None) equinox_payload = Ok r /\
    dict_keys (placements r) =
      ["Sun"; "Moon"; "Mercury"; "Venus"; "Mars"; "Jupiter"; "Saturn"; "Uranus";
       "Neptune"; "Pluto"; "Chiron"; "mean Node"; "mean Apogee";
       "Ascendant"; "Midheaven"; "Descendant"; "IC"].
Proof.
  assert (NoDup (map (get_planet_name (swe_stub 0.5 None)) bodies ++ angle_names)) as Hnd.
  { apply (bool_decide_unpack _). vm_compute. exact I. }
  destruct (placements_keys_fixed_order interp_stub (swe_stub 0.5 None) equinox_payload Hnd)
    as [Hkeys Hruns].
  destruct (Hruns (mk_datetime 2024 3 20 3 6 0 0 None) 0%float 0%float) as [r Hr].
  - repeat split; vm_compute; reflexivity.
  - eexists. split; [reflexivity|]. split.
    + intros c _. eexists. split; [destruct c; vm_compute; reflexivity|reflexivity].
    + eexists _, _. split; [reflexivity|]. cbn. lia.
  - exists r. split; [exact Hr|]. exact (proj1 (Hkeys r Hr)).
Defined.

(** C1, as worded, fails: with the display names of the Swiss Ephemeris
    the keys of a successful build are not the list the specification
    gives (the node and the apogee are named differently). *)
Lemma placements_keys_not_spec_names :
  exists r,
    build_chart interp_stub (swe_stub 0.5 None) equinox_payload = Ok r /\
    dict_keys (placements r) <> spec_placement_keys.
Proof.
  eexists. split; [vm_compute; reflexivity|]. vm_compute. discriminate.
Qed.

(** C2 (amended).  From a result wrapped as a pair
    [(data, status)] the builder takes the first four values of [data];
    from a direct result of four or more values it takes the last four;
    in both cases in the order longitude, latitude, distance, speed. *)
Theorem unpack_result_positions (a b c d status : pyval) (rest pre : list pyval) :
  unpack_result (VTuple [VTuple (a :: b :: c :: d :: rest); status]) = Ok (a, b, c, d) /\
  unpack_result (VTuple [VList (a :: b :: c :: d :: rest); status]) = Ok (a, b, c, d) /\
  unpack_result (VTuple (pre ++ [a; b; c; d])%list) = Ok (a, b, c, d) /\
  unpack_result (VList (pre ++ [a; b; c; d])%list) = Ok (a, b, c, d).
Proof.
  repeat split.
  - destruct (seq_index_first_four "tuple" a b c d rest) as (Ha & Hb & Hc & Hd).
    unfold unpack_result. rewrite py_getitem_pair_0. cbn. rewrite Ha. cbn. rewrite Hb. cbn. rewrite Hc. cbn.
    rewrite Hd. reflexivity.
  - destruct (seq_index_first_four "list" a b c d rest) as (Ha & Hb & Hc & Hd).
    unfold unpack_result. rewrite py_getitem_pair_0. cbn. rewrite Ha. cbn. rewrite Hb. cbn. rewrite Hc. cbn.
    rewrite Hd. reflexivity.
  - destruct (seq_index_last_four "tuple" pre a b c d) as (Ha & Hb & Hc & Hd).
    unfold unpack_result, is_tuple_of_two. rewrite length_app. cbn [length].
    replace (length pre + 4 =? 2)%nat with false by (symmetry; apply Nat.eqb_neq; lia).
    cbn. rewrite Ha, Hb, Hc, Hd. reflexivity.
  - destruct (seq_index_last_four "list" pre a b c d) as (Ha & Hb & Hc & Hd).
    unfold unpack_result. cbn. rewrite Ha, Hb, Hc, Hd. reflexivity.
Qed.

(** C2, as worded, fails: of a wrapped result with six values the builder
    takes the first four, which are not the last four of the returned
    data. *)
Lemma unpack_result_not_last_four :
  let result :=
    VTuple [VTuple [VFloat 10.5; VFloat 0.25; VFloat 1.5; VFloat (-0.5);
                    VFloat 0.125; VFloat 0.0625];
            VInt 258] in
  unpack_result result = Ok (VFloat 10.5, VFloat 0.25, VFloat 1.5, VFloat (-0.5)) /\
  last_four (returned_data result)
    = Some (VFloat 1.5, VFloat (-0.5), VFloat 0.125, VFloat 0.0625) /\
  unpack_result result <> from_option Ok (Raise (IndexError "")) (last_four (returned_data result)).
Proof.
  cbv zeta. split; [vm_compute; reflexivity|]. split; [vm_compute; reflexivity|].
  vm_compute. intros [= ].
Qed.

(** C3.  In every successful result each placement's [retrograde] is
    [speed < 0] of the speed stored beside it; for each of the thirteen
    bodies that speed is the fourth value unpacked from what the provider
    returned for the body, and nothing else of the provider's answer enters
    [retrograde]; and for a speed with a sign (strictly negative or
    strictly positive), a provider that returns the speed with the sign
    flipped gets [retrograde] flipped. *)
Theorem retrograde_recomputed (py : Interp) (swe : Swe) (p : gmap string pyval) (r : chart) :
  build_chart py swe p = Ok r ->
  (forall k pl, dict_get (placements r) k = Some pl -> retrograde_is_sign pl) /\
  (forall c, c ∈ bodies ->
     exists result lon lat dist sp b,
       calc_ut swe (julian_day r) c = Ok result /\
       unpack_result result = Ok (lon, lat, dist, sp) /\
       py_lt_zero sp = Ok b /\
       (NoDup (map (get_planet_name swe) bodies ++ angle_names) ->
        dict_get (placements r) (get_planet_name swe c)
          = Some (Placement.mk lon lat dist sp b)) /\
       forall (swe' : Swe) result' lon' lat' dist',
         has_sign sp = true ->
         calc_ut swe' (julian_day r) c = Ok result' ->
         unpack_result result' = Ok (lon', lat', dist', py_neg sp) ->
         body_placement swe' (julian_day r) c
           = Ok (Placement.mk lon' lat' dist' (py_neg sp) (negb b))).
Proof.
  intros (dt & lat0 & lon0 & jd & pls & cusps & ascmc & asc & mc & dc & ic &
          _ & _ & Hpls & _ & _ & _ & _ & _ & ->)%build_chart_Ok.
  cbn [placements julian_day]. split.
  - intros k pl Hget.
    apply (dict_get_Forall retrograde_is_sign _ k pl) in Hget; [assumption|].
    apply angle_store_invariant.
    apply (body_loop_invariant swe jd bodies [] pls Hpls). constructor.
  - intros c Hc.
    destruct (body_loop_each swe jd bodies [] pls Hpls c Hc) as [pl Hpl].
    pose proof Hpl as (result & lon & lat & dist & sp & b & Hcalc & Hun & Hb & ->)%body_placement_Ok.
    exists result, lon, lat, dist, sp, b. repeat split; try assumption.
    + intros Hnd.
      pose proof Hnd as (Hnd1 & Hdisj & _)%NoDup_app.
      rewrite angle_store_other
        by (intros Hin; apply (Hdisj (get_planet_name swe c)); [|exact Hin];
            apply list_elem_of_fmap; eauto).
      destruct (body_loop_get swe jd bodies [] pls c Hpls Hnd1 Hc) as (pl' & Hpl' & Hget).
      rewrite Hpl in Hpl'. injection Hpl' as <-. exact Hget.
    + intros swe' result' lon' lat' dist' Hs Hcalc' Hun'.
      apply body_placement_Ok.
      exists result', lon', lat', dist', (py_neg sp), (negb b).
      repeat split; try assumption. now apply py_lt_zero_neg.
Qed.

Lemma retrograde_recomputed_witness :
  exists r,
    build_chart interp_stub (swe_stub (-0.5) None) equinox_payload = Ok r /\
    (forall k pl, dict_get (placements r) k = Some pl -> retrograde_is_sign pl) /\
    Placement.retrograde <$> dict_get (placements r) "Mars" = Some true /\
    body_placement (swe_stub 0.5 None) (julian_day r) MARS
      = Ok (Placement.mk (VFloat 10.5) (VFloat 0.25) (VFloat 1.5) (VFloat 0.5) false).
Proof.
  eexists. split; [vm_compute; reflexivity|].
  edestruct (retrograde_recomputed interp_stub (swe_stub (-0.5) None) equinox_payload)
    as [Hinv Hbodies]; [vm_compute; reflexivity|].
  split; [exact Hinv|]. split; [vm_compute; reflexivity|].
  destruct (Hbodies MARS) as (result & lon & lat & dist & sp & b & Hcalc & Hun & Hb & _ & Hflip).
  { apply list_elem_of_In. cbn. tauto. }
  vm_compute in Hcalc. injection Hcalc as <-.
  vm_compute in Hun. injection Hun as <- <- <- <-.
  vm_compute in Hb. injection Hb as <-.
  refine (Hflip (swe_stub 0.5 None) _ (VFloat 10.5) (VFloat 0.25) (VFloat 1.5) _ _ _);
    vm_compute; reflexivity.
Defined.

(** The edge of the sign flip: a speed of [0.0] and its sign-flipped
    [-0.0] are both not below zero, so both give [retrograde = False]. *)
Lemma retrograde_at_zero_speed :
  exists r r',
    build_chart interp_stub (swe_stub 0 None) equinox_payload = Ok r /\
    build_chart interp_stub (swe_stub (- 0) None) equinox_payload = Ok r' /\
    Placement.retrograde <$> dict_get (placements r) "Sun" = Some false /\
    Placement.retrograde <$> dict_get (placements r') "Sun" = Some false.
Proof.
  eexists _, _. split; [vm_compute; reflexivity|]. split; [vm_compute; reflexivity|].
  split; vm_compute; reflexivity.
Qed.

(** C4.  In every successful build the Ascendant and the Midheaven are
    [ascmc[0]] and [ascmc[1]] of what [houses_ex] returned for the result's
    Julian Day and coordinates, the Descendant's longitude is
    [(Ascendant + 180.0) % 360.0] and the IC's is
    [(Midheaven + 180.0) % 360.0]. *)
Theorem angle_opposites (py : Interp) (swe : Swe) (p : gmap string pyval) (r : chart) :
  build_chart py swe p = Ok r ->
  exists cusps ascmc asc mc dc ic,
    houses_ex swe (julian_day r) (latitude r) (longitude r) "P" = Ok (cusps, ascmc) /\
    ascmc !! 0%nat = Some asc /\ ascmc !! 1%nat = Some mc /\
    float_mod (asc + 180) 360 = Ok dc /\
    float_mod (mc + 180) 360 = Ok ic /\
    Placement.longitude <$> dict_get (placements r) "Ascendant" = Some (VFloat asc) /\
    Placement.longitude <$> dict_get (placements r) "Midheaven" = Some (VFloat mc) /\
    Placement.longitude <$> dict_get (placements r) "Descendant" = Some (VFloat dc) /\
    Placement.longitude <$> dict_get (placements r) "IC" = Some (VFloat ic).
Proof.
  intros (dt & lat & lon & jd & pls & cusps & ascmc & asc & mc & dc & ic &
          _ & _ & _ & Hh & Ha & Hm & Hdc & Hic & ->)%build_chart_Ok.
  cbn [placements julian_day latitude longitude].
  destruct (angle_store_get pls asc mc dc ic) as (G1 & G2 & G3 & G4).
  exists cusps, ascmc, asc, mc, dc, ic. rewrite G1, G2, G3, G4.
  repeat split; assumption.
Qed.

Lemma angle_opposites_witness :
  exists r,
    build_chart interp_stub (swe_stub 0.5 None) equinox_payload = Ok r /\
    Placement.longitude <$> dict_get (placements r) "Descendant" = Some (VFloat 20.5) /\
    exists cusps ascmc asc mc dc ic,
      houses_ex (swe_stub 0.5 None) (julian_day r) (latitude r) (longitude r) "P"
        = Ok (cusps, ascmc) /\
      ascmc !! 0%nat = Some asc /\ ascmc !! 1%nat = Some mc /\
      float_mod (asc + 180) 360 = Ok dc /\
      float_mod (mc + 180) 360 = Ok ic /\
      Placement.longitude <$> dict_get (placements r) "Ascendant" = Some (VFloat asc) /\
      Placement.longitude <$> dict_get (placements r) "Midheaven" = Some (VFloat mc) /\
      Placement.longitude <$> dict_get (placements r) "Descendant" = Some (VFloat dc) /\
      Placement.longitude <$> dict_get (placements r) "IC" = Some (VFloat ic).
Proof.
  eexists. split; [vm_compute; reflexivity|]. split; [vm_compute; reflexivity|].
  apply (angle_opposites interp_stub (swe_stub 0.5 None) equinox_payload).
  vm_compute. reflexivity.
Defined.

(** C8.  In every successful result each of Ascendant, Midheaven,
    Descendant and IC is present with [latitude = 0.0],
    [distance_au = 0.0], [speed = 0.0] and [retrograde = False]. *)
Theorem angle_fields_zero (py : Interp) (swe : Swe) (p : gmap string pyval) (r : chart) :
  build_chart py swe p = Ok r ->
  forall k, k ∈ angle_names ->
    exists pl,
      dict_get (placements r) k = Some pl /\
      Placement.latitude pl = VFloat 0 /\
      Placement.distance_au pl = VFloat 0 /\
      Placement.speed pl = VFloat 0 /\
      Placement.retrograde pl = false.
Proof.
  intros (dt & lat & lon & jd & pls & cusps & ascmc & asc & mc & dc & ic &
          _ & _ & _ & _ & _ & _ & _ & _ & ->)%build_chart_Ok k Hk.
  cbn [placements].
  destruct (angle_store_get pls asc mc dc ic) as (G1 & G2 & G3 & G4).
  unfold angle_names in Hk.
  repeat (apply elem_of_cons in Hk as [->|Hk]); [..|inversion Hk];
    eexists; (split; [eassumption|]); repeat split.
Qed.

Lemma angle_fields_zero_witness :
  exists r,
    build_chart interp_stub (swe_stub 0.5 None) equinox_payload = Ok r /\
    forall k, k ∈ angle_names ->
      exists pl,
        dict_get (placements r) k = Some pl /\
        Placement.latitude pl = VFloat 0 /\
        Placement.distance_au pl = VFloat 0 /\
        Placement.speed pl = VFloat 0 /\
        Placement.retrograde pl = false.
Proof.
  eexists. split; [vm_compute; reflexivity|].
  apply (angle_fields_zero interp_stub (swe_stub 0.5 None) equinox_payload).
  vm_compute. reflexivity.
Defined.

(** C5.  A successful build has had a successful lookup for every one of
    the thirteen bodies; and when, past validation and the Julian Day, the
    lookup of a body raises while the bodies before it were placed, the
    build raises a [RuntimeError] whose message names that body and
    carries the provider's message. *)
Theorem body_failure_aborts (py : Interp) (swe : Swe) (p : gmap string pyval) :
  (forall r, build_chart py swe p = Ok r ->
     forall c, c ∈ bodies -> exists result, calc_ut swe (julian_day r) c = Ok result) /\
  (forall dt lat lon jd pre c post e,
     validates py p dt lat lon ->
     julday swe (year dt) (month dt) (day dt) (fractional_hour dt) = Ok jd ->
     bodies = (pre ++ c :: post)%list ->
     (forall c', c' ∈ pre -> exists pl, body_placement swe jd c' = Ok pl) ->
     calc_ut swe jd c = Raise e ->
     build_chart py swe p =
       Raise (RuntimeError ("Failed to calculate " ++ get_planet_name swe c
                            ++ ": " ++ exn_str e))).
Proof.
  split.
  - intros r (dt & lat & lon & jd & pls & cusps & ascmc & asc & mc & dc & ic &
              _ & _ & Hpls & _ & _ & _ & _ & _ & ->)%build_chart_Ok c Hc.
    cbn [julian_day].
    destruct (body_loop_each swe jd bodies [] pls Hpls c Hc) as [pl Hpl].
    apply body_placement_Ok in Hpl as (result & _ & _ & _ & _ & _ & Hcalc & _).
    eauto.
  - intros dt lat lon jd pre c post e Hv Hjd Hsplit Hpre Hfail.
    apply (build_chart_loop_raise py swe p dt lat lon jd _ Hv Hjd).
    rewrite Hsplit. now apply body_loop_first_failure.
Qed.

Lemma body_failure_aborts_witness :
  build_chart interp_stub (swe_stub 0.5 (Some MARS)) equinox_payload
    = Raise (RuntimeError "Failed to calculate Mars: simulated failure").
Proof.
  refine (proj2 (body_failure_aborts interp_stub (swe_stub 0.5 (Some MARS)) equinox_payload)
            (mk_datetime 2024 3 20 3 6 0 0 None) 0%float 0%float _
            [SUN; MOON; MERCURY; VENUS] MARS
            [JUPITER; SATURN; URANUS; NEPTUNE; PLUTO; CHIRON; MEAN_NODE; MEAN_APOG]
            (SweError "simulated failure") _ eq_refl eq_refl _ eq_refl).
  - repeat split; vm_compute; reflexivity.
  - intros c' Hc'. repeat (apply elem_of_cons in Hc' as [->|Hc']); [..|inversion Hc'];
      eexists; vm_compute; reflexivity.
Defined.




(** C7.  The string ["2024-03-20T03:06:00+05:00"] is accepted: parsing
    returns an aware datetime whose fields are the local wall time, and the
    build for it is the build for ["2024-03-20T03:06:00Z"], the offset
    being ignored, whatever the rest of the payload, the interpreter and
    the provider are. *)
Theorem offset_suffix_accepted (py : Interp) :
  _parse_datetime py (VStr "2024-03-20T03:06:00+05:00")
    = Ok (mk_datetime 2024 3 20 3 6 0 0 (Some 18000000000)) /\
  forall (swe : Swe) (p : gmap string pyval),
    build_chart py swe (<["datetime_utc" := VStr "2024-03-20T03:06:00+05:00"]> p)
    = build_chart py swe (<["datetime_utc" := VStr "2024-03-20T03:06:00Z"]> p).
Proof.
  assert (_parse_datetime py (VStr "2024-03-20T03:06:00+05:00")
          = Ok (mk_datetime 2024 3 20 3 6 0 0 (Some 18000000000))) as Hoff
    by (vm_compute; reflexivity).
  assert (_parse_datetime py (VStr "2024-03-20T03:06:00Z")
          = Ok (mk_datetime 2024 3 20 3 6 0 0 None)) as Hz
    by (vm_compute; reflexivity).
  split; [exact Hoff|]. intros swe p.
  unfold build_chart, payload_get.
  rewrite !lookup_insert_eq, !lookup_insert_ne by discriminate.
  cbn [from_option id]. rewrite Hoff, Hz. reflexivity.
Qed.




(** C10.  A datetime instance is returned as it is, and a string without
    a trailing [Z] is parsed as it stands; with such a [datetime_utc] and
    valid coordinates the request passes validation, and whatever the build
    then does, it does not raise a [ValueError]. *)
Theorem no_trailing_Z_accepted (py : Interp) (swe : Swe) (p : gmap string pyval) :
  (forall d, _parse_datetime py (VDatetime d) = Ok d) /\
  (forall s d, ends_with_Z s = false -> fromisoformat s = Some d ->
     _parse_datetime py (VStr s) = Ok d) /\
  (forall dt_input d,
     p !! "datetime_utc" = Some dt_input ->
     dt_input = VDatetime d \/
       (exists s, dt_input = VStr s /\ ends_with_Z s = false /\ fromisoformat s = Some d) ->
     coordinate_ok py (-90) 90 (payload_get p "latitude") = true ->
     coordinate_ok py (-180) 180 (payload_get p "longitude") = true ->
     (exists lat lon, validates py p d lat lon) /\
     forall msg, build_chart py swe p <> Raise (ValueError msg)).
Proof.
  assert (forall s d, ends_with_Z s = false -> fromisoformat s = Some d ->
            _parse_datetime py (VStr s) = Ok d) as Hstr.
  { intros s d Hz Hs. unfold _parse_datetime.
    now rewrite Hz, (fromisoformat_read py s d Hs). }
  split; [reflexivity|]. split; [exact Hstr|].
  intros dt_input d Hget Hshape Hlat Hlon.
  assert (_parse_datetime py (default (VStr "") (p !! "datetime_utc")) = Ok d) as Hdt.
  { rewrite Hget. cbn [from_option id].
    destruct Hshape as [->|(s & -> & Hz & Hs)]; [reflexivity|now apply Hstr]. }
  pose proof Hlat as (lat & Hflat & _)%coordinate_ok_true; [|reflexivity..].
  pose proof Hlon as (lon & Hflon & _)%coordinate_ok_true; [|reflexivity..].
  assert (validates py p d lat lon) as Hv by (repeat split; assumption).
  split; [eauto|].
  intros msg H. now apply (build_chart_validated_raise py swe p d lat lon _ Hv) in H.
Qed.

Lemma no_trailing_Z_accepted_witness :
  _parse_datetime interp_stub (VStr "2024-03-20T03:06:00")
  = Ok (mk_datetime 2024 3 20 3 6 0 0 None) /\
  forall msg,
    build_chart interp_stub (swe_stub 0.5 None)
      (example_payload (VStr "2024-03-20T03:06:00") (VInt 0) (VInt 0))
    <> Raise (ValueError msg).
Proof.
  split.
  - refine (proj1 (proj2 (no_trailing_Z_accepted interp_stub (swe_stub 0.5 None) ∅)) _ _ _ _);
      vm_compute; reflexivity.
  - refine (proj2 (proj2 (proj2 (no_trailing_Z_accepted interp_stub (swe_stub 0.5 None)
                                   (example_payload (VStr "2024-03-20T03:06:00") (VInt 0) (VInt 0))))
                     (VStr "2024-03-20T03:06:00") (mk_datetime 2024 3 20 3 6 0 0 None)
                     _ _ _ _)).
    + vm_compute. reflexivity.
    + right. eexists. split; [reflexivity|]. split; vm_compute; reflexivity.
    + vm_compute. reflexivity.
    + vm_compute. reflexivity.
Defined.

(** * Further properties of the code *)

(** ** Validation *)

Lemma list_ascii_of_string_app (s t : string) :
  list_ascii_of_string (s ++ t) = (list_ascii_of_string s ++ list_ascii_of_string t)%list.
Proof.
  induction s as [|c s IH]; [reflexivity|].
  simpl. now rewrite IH.
Qed.

Lemma ends_with_Z_app (s : string) : ends_with_Z (s ++ "Z") = true.
Proof.
  unfold ends_with_Z. rewrite list_ascii_of_string_app. cbn [list_ascii_of_string].
  now rewrite last_snoc.
Qed.

Lemma drop_last_app (s : string) : drop_last (s ++ "Z") = s.
Proof.
  unfold drop_last. rewrite list_ascii_of_string_app. cbn [list_ascii_of_string].
  rewrite removelast_last. apply string_of_list_ascii_of_string.
Qed.

(** Whether validation passes does not depend on the provider: a request
    that no canonical values validate is refused with the same [ValueError]
    by every provider. *)
Lemma build_chart_invalid py (p : gmap string pyval) :
  (forall dt lat lon, ~ validates py p dt lat lon) ->
  exists msg, forall swe, build_chart py swe p = Raise (ValueError msg).
Proof.
  intros Hinv.
  destruct (_parse_datetime py (default (VStr "") (p !! "datetime_utc"))) as [dt|e] eqn:Hdt.
  - destruct (coordinate_ok py (-90) 90 (payload_get p "latitude")) eqn:Hlat.
    + destruct (coordinate_ok py (-180) 180 (payload_get p "longitude")) eqn:Hlon.
      * exfalso.
        pose proof Hlat as (lat & Hflat & _)%coordinate_ok_true; [|reflexivity..].
        pose proof Hlon as (lon & Hflon & _)%coordinate_ok_true; [|reflexivity..].
        apply (Hinv dt lat lon). repeat split; assumption.
      * destruct (coordinate_except_raises py "Longitude must be between -180 and 180. Got: "
                    (payload_get p "longitude")) as [msg Hmsg].
        exists msg. intros swe.
        rewrite (proj2 (coordinate_messages py swe p dt Hdt) Hlat Hlon). exact Hmsg.
    + destruct (coordinate_except_raises py "Latitude must be between -90 and 90. Got: "
                  (payload_get p "latitude")) as [msg Hmsg].
      exists msg. intros swe.
      rewrite (proj1 (coordinate_messages py swe p dt Hdt) Hlat). exact Hmsg.
  - destruct (_parse_datetime_raises _ _ _ Hdt) as [msg ->].
    exists msg. intros swe. unfold build_chart. rewrite Hdt. reflexivity.
Qed.

(** The build looks at the datetime through its date and its time to the
    second only. *)
Lemma build_chart_wall_clock py swe (p : gmap string pyval) v v' dt dt' :
  _parse_datetime py v = Ok dt -> _parse_datetime py v' = Ok dt' ->
  same_wall_clock dt dt' ->
  build_chart py swe (<["datetime_utc" := v]> p)
  = build_chart py swe (<["datetime_utc" := v']> p).
Proof.
  intros Hv Hv' (Hy & Hmo & Hd & Hh & Hmi & Hs).
  unfold build_chart, payload_get.
  rewrite !lookup_insert_eq, !lookup_insert_ne by discriminate.
  cbn [from_option id]. rewrite Hv, Hv'. cbn. unfold strftime_iso_z.
  rewrite Hy, Hmo, Hd, Hh, Hmi, Hs. reflexivity.
Qed.

(** A string the documented format reads has ten characters or more. *)
Lemma fromisoformat_short (s : string) :
  (String.length s < 10)%nat -> fromisoformat s = None.
Proof.
  intros Hlen. unfold fromisoformat. cbv zeta.
  destruct (parse_isoformat_date (take 10 (list_ascii_of_string s)))
    as [[[y m] d]|] eqn:Hdate; [exfalso|reflexivity].
  unfold parse_isoformat_date in Hdate.
  assert (length (take 10 (list_ascii_of_string s)) = 10%nat) as Hten
    by (simplify_option_eq; assumption).
  rewrite length_take in Hten.
  assert (length (list_ascii_of_string s) = String.length s) as Hl.
  { clear. induction s as [|c s IH]; [reflexivity|]. cbn. now rewrite IH. }
  lia.
Qed.

(** X1.  The datetime is checked first, whatever the coordinates are: a
    payload without [datetime_utc] is refused with the message for the empty
    string; a string that the interpreter's [datetime.fromisoformat]
    refuses, once a trailing [Z] is taken off, with the message that echoes
    it as it came, and so is every string that is then shorter than seven
    characters, whatever the interpreter; and a value that is neither a
    string nor a datetime with the message about the type. *)
Theorem datetime_rejected (py : Interp) (swe : Swe) (p : gmap string pyval) :
  (p !! "datetime_utc" = None ->
   build_chart py swe p
   = Raise (ValueError "Invalid datetime_utc: ''. Use 'YYYY-MM-DDTHH:MM:SSZ'.")) /\
  (forall s, p !! "datetime_utc" = Some (VStr s) ->
     datetime_fromisoformat py (if ends_with_Z s then drop_last s else s) = None \/
     (String.length (if ends_with_Z s then drop_last s else s) < 7)%nat ->
     build_chart py swe p
     = Raise (ValueError ("Invalid datetime_utc: '" ++ s
                          ++ "'. Use 'YYYY-MM-DDTHH:MM:SSZ'."))) /\
  (forall v, p !! "datetime_utc" = Some v ->
     (forall s, v <> VStr s) -> (forall d, v <> VDatetime d) ->
     build_chart py swe p
     = Raise (ValueError
         "datetime_utc must be an ISO8601 string ending in 'Z' or a datetime instance.")).
Proof.
  repeat split.
  - intros Hnone. unfold build_chart. rewrite Hnone. reflexivity.
  - intros s Hs Hbad. unfold build_chart. rewrite Hs. cbn [from_option id].
    unfold _parse_datetime.
    assert (datetime_fromisoformat py (if ends_with_Z s then drop_last s else s) = None)
      as ->; [|reflexivity].
    destruct Hbad as [Hbad|Hshort]; [exact Hbad|].
    unfold datetime_fromisoformat. rewrite fromisoformat_short by lia.
    apply Nat.ltb_lt in Hshort. now rewrite Hshort.
  - intros v Hv Hstr Hdt. unfold build_chart. rewrite Hv. cbn [from_option id].
    destruct v; try reflexivity; [now destruct (Hstr s)|now destruct (Hdt d)].
Qed.

Lemma datetime_rejected_witness :
  build_chart interp_stub (swe_stub 0.5 None)
    (<["latitude" := VInt 91]> ∅)
  = Raise (ValueError "Invalid datetime_utc: ''. Use 'YYYY-MM-DDTHH:MM:SSZ'.") /\
  build_chart interp_stub (swe_stub 0.5 None)
    (example_payload (VStr "20 March 2024") (VInt 0) (VInt 0))
  = Raise (ValueError "Invalid datetime_utc: '20 March 2024'. Use 'YYYY-MM-DDTHH:MM:SSZ'.") /\
  (forall py swe,
     build_chart py swe (example_payload (VStr "todayZ") (VInt 0) (VInt 0))
     = Raise (ValueError "Invalid datetime_utc: 'todayZ'. Use 'YYYY-MM-DDTHH:MM:SSZ'.")) /\
  build_chart interp_stub (swe_stub 0.5 None)
    (example_payload (VInt 1710903960) (VInt 0) (VInt 0))
  = Raise (ValueError
      "datetime_utc must be an ISO8601 string ending in 'Z' or a datetime instance.").
Proof.
  split; [|split; [|split]].
  - refine (proj1 (datetime_rejected _ _ _) _). vm_compute. reflexivity.
  - refine (proj1 (proj2 (datetime_rejected _ _ _)) "20 March 2024" _ _);
      [vm_compute; reflexivity|left; vm_compute; reflexivity].
  - intros py swe.
    refine (proj1 (proj2 (datetime_rejected py swe _)) "todayZ" _ _);
      [vm_compute; reflexivity|right; vm_compute; lia].
  - refine (proj2 (proj2 (datetime_rejected _ _ _)) (VInt 1710903960) _ _ _);
      [vm_compute; reflexivity|discriminate..].
Defined.

(** X2.  The trailing [Z] is optional: a string that parses without it
    parses to the same datetime with a [Z] appended, and the two requests
    get the same outcome. *)
Theorem trailing_Z_optional (py : Interp) (swe : Swe) (p : gmap string pyval)
    (s : string) (d : datetime) :
  fromisoformat s = Some d -> ends_with_Z s = false ->
  _parse_datetime py (VStr (s ++ "Z")) = Ok d /\
  build_chart py swe (<["datetime_utc" := VStr (s ++ "Z")]> p)
  = build_chart py swe (<["datetime_utc" := VStr s]> p).
Proof.
  intros Hs Hz.
  assert (_parse_datetime py (VStr (s ++ "Z")) = Ok d) as HZ.
  { unfold _parse_datetime.
    now rewrite ends_with_Z_app, drop_last_app, (fromisoformat_read py s d Hs). }
  assert (_parse_datetime py (VStr s) = Ok d) as Hplain.
  { unfold _parse_datetime. now rewrite Hz, (fromisoformat_read py s d Hs). }
  split; [exact HZ|].
  apply (build_chart_wall_clock py swe p _ _ d d HZ Hplain). repeat split.
Qed.

Lemma trailing_Z_optional_witness :
  _parse_datetime interp_stub (VStr "2024-03-20T03:06:00Z")
  = Ok (mk_datetime 2024 3 20 3 6 0 0 None) /\
  build_chart interp_stub (swe_stub 0.5 None) equinox_payload
  = build_chart interp_stub (swe_stub 0.5 None)
      (example_payload (VStr "2024-03-20T03:06:00") (VInt 0) (VInt 0)).
Proof.
  refine (trailing_Z_optional interp_stub (swe_stub 0.5 None)
            (<["latitude" := VInt 0]> (<["longitude" := VInt 0]> ∅))
            "2024-03-20T03:06:00" _ _ _); vm_compute; reflexivity.
Defined.

(** X3.  The build reads the datetime through its date and its time to the
    second only: two values of [datetime_utc] that parse to datetimes with
    the same year, month, day, hour, minute and second get the same
    outcome, whatever their fractional seconds and UTC offsets are. *)
Theorem subsecond_and_offset_ignored (py : Interp) (swe : Swe) (p : gmap string pyval)
    (v v' : pyval) (dt dt' : datetime) :
  _parse_datetime py v = Ok dt -> _parse_datetime py v' = Ok dt' ->
  same_wall_clock dt dt' ->
  build_chart py swe (<["datetime_utc" := v]> p)
  = build_chart py swe (<["datetime_utc" := v']> p).
Proof. apply build_chart_wall_clock. Qed.

Lemma subsecond_and_offset_ignored_witness :
  build_chart interp_stub (swe_stub 0.5 None)
    (example_payload (VStr "2024-03-20T03:06:59.999999-08:00") (VInt 0) (VInt 0))
  = build_chart interp_stub (swe_stub 0.5 None)
      (example_payload (VDatetime (mk_datetime 2024 3 20 3 6 59 0 None)) (VInt 0) (VInt 0)).
Proof.
  refine (subsecond_and_offset_ignored interp_stub (swe_stub 0.5 None)
            (<["latitude" := VInt 0]> (<["longitude" := VInt 0]> ∅))
            _ _ (mk_datetime 2024 3 20 3 6 59 999999 (Some (-28800000000)))
            (mk_datetime 2024 3 20 3 6 59 0 None) _ _ _);
    [vm_compute; reflexivity|reflexivity|repeat split].
Defined.

(** ** Failures of the provider steps *)

Lemma seq_index_shape_error {A} what (l : list A) i e :
  seq_index what l i = Raise e -> is_shape_error e = true.
Proof.
  unfold seq_index. cbv zeta. destruct (_ || _); [intros [= <-]; reflexivity|].
  destruct (l !! _); [discriminate|intros [= <-]; reflexivity].
Qed.

Lemma py_getitem_shape_error v i e : py_getitem v i = Raise e -> is_shape_error e = true.
Proof.
  destruct v; cbn; try (intros [= <-]; reflexivity); try apply seq_index_shape_error.
  destruct (seq_index _ _ _) eqn:H; cbn; [discriminate|].
  intros [= <-]. exact (seq_index_shape_error _ _ _ _ H).
Qed.

Lemma unpack_result_shape_error result e :
  unpack_result result = Raise e -> is_shape_error e = true.
Proof.
  unfold unpack_result. destruct (is_tuple_of_two result); intros H;
    repeat (apply bind_raise in H as [H|(? & _ & H)];
            [exact (py_getitem_shape_error _ _ _ H)|]);
    discriminate H.
Qed.

Lemma py_lt_zero_shape_error v e : py_lt_zero v = Raise e -> is_shape_error e = true.
Proof. destruct v; cbn; intros [= <-]; reflexivity. Qed.

Lemma body_placement_raise_kind swe jd c e :
  body_placement swe jd c = Raise e -> is_runtime_error e || is_shape_error e = true.
Proof.
  unfold body_placement. intros H.
  apply bind_raise in H as [H|(result & _ & H)].
  { destruct (calc_ut swe jd c); [discriminate|]. cbn in H. now injection H as <-. }
  apply bind_raise in H as [H|([[[lon lat] dist] sp] & _ & H)].
  { rewrite (unpack_result_shape_error _ _ H). apply orb_true_r. }
  apply bind_raise in H as [H|(b & _ & H)]; [|discriminate].
  rewrite (py_lt_zero_shape_error _ _ H). apply orb_true_r.
Qed.

Lemma body_loop_raise_kind swe jd codes acc e :
  for_each (body_step swe jd) codes acc = Raise e ->
  is_runtime_error e || is_shape_error e = true.
Proof.
  revert acc. induction codes as [|c0 rest IH]; intros acc H; [discriminate|].
  rewrite for_each_cons in H. apply bind_raise in H as [H|(acc' & _ & H)]; [|eauto].
  unfold body_step in H. apply bind_raise in H as [H|(pl & _ & H)]; [|discriminate].
  exact (body_placement_raise_kind _ _ _ _ H).
Qed.

(** The loop stops at the first body that cannot be placed, with the
    exception of that body. *)
Lemma body_loop_first_raise swe jd pre c post acc e :
  (forall c', c' ∈ pre -> exists pl, body_placement swe jd c' = Ok pl) ->
  body_placement swe jd c = Raise e ->
  for_each (body_step swe jd) (pre ++ c :: post) acc = Raise e.
Proof.
  intros Hpre Hc. revert acc. induction pre as [|c0 pre IH]; intros acc.
  - cbn [app]. rewrite for_each_cons. unfold body_step. rewrite Hc. reflexivity.
  - cbn [app]. rewrite for_each_cons.
    destruct (Hpre c0) as [pl0 Hpl0]; [left|].
    rewrite (proj2 (body_step_Ok swe jd acc c0 _) (ex_intro _ pl0 (conj Hpl0 eq_refl))). cbn.
    apply IH. intros c' Hc'. apply Hpre. now right.
Qed.

Lemma build_chart_houses_raise py swe (p : gmap string pyval) dt lat lon jd pls e :
  validates py p dt lat lon ->
  julday swe (year dt) (month dt) (day dt) (fractional_hour dt) = Ok jd ->
  for_each (body_step swe jd) bodies [] = Ok pls ->
  ('(cusps, ascmc) ← houses_ex swe jd lat lon "P";
   asc ← seq_index "tuple" ascmc 0;
   mc ← seq_index "tuple" ascmc 1;
   dc ← float_mod (asc + 180) 360;
   ic ← float_mod (mc + 180) 360;
   Ok (asc, mc, dc, ic)) = Raise e ->
  build_chart py swe p
  = Raise (RuntimeError ("Failed to compute houses/angles: " ++ exn_str e)).
Proof.
  intros (Hdt & Hlat & Hlr & Hlon & Hnr) Hjd Hloop Hh.
  rewrite (coordinate_ok_range py (-90) 90 _ lat eq_refl eq_refl Hlat) in Hlr.
  rewrite (coordinate_ok_range py (-180) 180 _ lon eq_refl eq_refl Hlon) in Hnr.
  unfold build_chart, fractional_hour in *.
  rewrite Hdt. cbn. rewrite Hlat. cbn. rewrite Hlr. cbn. rewrite Hlon. cbn.
  rewrite Hnr. cbn. rewrite Hjd. cbn. rewrite Hloop. cbn.
  unfold try_except. cbn in Hh. rewrite Hh. reflexivity.
Qed.

(** X4.  Past validation, an exception of the Julian Day conversion makes
    the build raise a [RuntimeError] that carries the provider's message
    after ["Failed to compute Julian Day: "]. *)
Theorem julday_failure_wrapped (py : Interp) (swe : Swe) (p : gmap string pyval)
    (dt : datetime) (lat lon : float) (e : exn) :
  validates py p dt lat lon ->
  julday swe (year dt) (month dt) (day dt) (fractional_hour dt) = Raise e ->
  build_chart py swe p = Raise (RuntimeError ("Failed to compute Julian Day: " ++ exn_str e)).
Proof.
  intros (Hdt & Hlat & Hlr & Hlon & Hnr) Hjd.
  rewrite (coordinate_ok_range py (-90) 90 _ lat eq_refl eq_refl Hlat) in Hlr.
  rewrite (coordinate_ok_range py (-180) 180 _ lon eq_refl eq_refl Hlon) in Hnr.
  unfold build_chart, fractional_hour in *.
  rewrite Hdt. cbn. rewrite Hlat. cbn. rewrite Hlr. cbn. rewrite Hlon. cbn.
  rewrite Hnr. cbn. rewrite Hjd. reflexivity.
Qed.

Lemma julday_failure_wrapped_witness :
  build_chart interp_stub swe_julday_fails equinox_payload
  = Raise (RuntimeError "Failed to compute Julian Day: invalid date").
Proof.
  refine (julday_failure_wrapped interp_stub swe_julday_fails equinox_payload
            (mk_datetime 2024 3 20 3 6 0 0 None) 0%float 0%float
            (SweError "invalid date") _ eq_refl).
  repeat split; vm_compute; reflexivity.
Defined.

(** X5.  Past validation, the Julian Day and the thirteen bodies: an
    exception of [houses_ex] makes the build raise a [RuntimeError] with the
    provider's message after ["Failed to compute houses/angles: "]; an
    [ascmc] of fewer than two values does the same with the message of the
    index error; and an [ascmc] of two values or more always gives a
    result, whatever floats the two angles are. *)
Theorem houses_failure_wrapped (py : Interp) (swe : Swe) (p : gmap string pyval)
    (dt : datetime) (lat lon jd : float) :
  validates py p dt lat lon ->
  julday swe (year dt) (month dt) (day dt) (fractional_hour dt) = Ok jd ->
  (forall c, c ∈ bodies -> exists pl, body_placement swe jd c = Ok pl) ->
  (forall e, houses_ex swe jd lat lon "P" = Raise e ->
     build_chart py swe p
     = Raise (RuntimeError ("Failed to compute houses/angles: " ++ exn_str e))) /\
  (forall cusps ascmc,
     houses_ex swe jd lat lon "P" = Ok (cusps, ascmc) -> (length ascmc < 2)%nat ->
     build_chart py swe p
     = Raise (RuntimeError "Failed to compute houses/angles: tuple index out of range")) /\
  (forall cusps ascmc,
     houses_ex swe jd lat lon "P" = Ok (cusps, ascmc) -> (2 <= length ascmc)%nat ->
     exists r, build_chart py swe p = Ok r).
Proof.
  intros Hv Hjd Hbodies.
  destruct (body_loop_total swe jd bodies [] Hbodies) as [pls Hpls].
  repeat split.
  - intros e He.
    apply (build_chart_houses_raise py swe p dt lat lon jd pls e Hv Hjd Hpls).
    rewrite He. reflexivity.
  - intros cusps ascmc Hh Hlen.
    apply (build_chart_houses_raise py swe p dt lat lon jd pls
             (IndexError "tuple index out of range") Hv Hjd Hpls).
    rewrite Hh. cbn.
    destruct ascmc as [|asc [|mc rest]]; [reflexivity|reflexivity|cbn in Hlen; lia].
  - intros cusps ascmc Hh Hlen.
    destruct ascmc as [|asc [|mc rest]]; [cbn in Hlen; lia..|].
    destruct (float_mod_360_Ok (asc + 180)) as [dc Hdc].
    destruct (float_mod_360_Ok (mc + 180)) as [ic Hic].
    eexists. apply build_chart_Ok.
    exists dt, lat, lon, jd, pls, cusps, (asc :: mc :: rest), asc, mc, dc, ic.
    repeat split; try eassumption; try reflexivity; apply Hv.
Qed.

Lemma houses_failure_wrapped_witness :
  build_chart interp_stub swe_short_ascmc equinox_payload
  = Raise (RuntimeError "Failed to compute houses/angles: tuple index out of range").
Proof.
  refine (proj1 (proj2 (houses_failure_wrapped interp_stub swe_short_ascmc equinox_payload
                          (mk_datetime 2024 3 20 3 6 0 0 None) 0%float 0%float
                          2460389.5%float _ eq_refl _))
            [] [200.5%float] eq_refl _).
  - repeat split; vm_compute; reflexivity.
  - intros c _. destruct c; eexists; vm_compute; reflexivity.
  - cbn. lia.
Defined.

(** X6.  A provider answer of the wrong shape is not reported as a
    provider failure: past validation and the Julian Day, when the first
    body that cannot be placed got an answer that does not unpack, or whose
    speed does not compare with [0], the build raises that [TypeError] or
    [IndexError] itself, not a [RuntimeError]. *)
Theorem malformed_answer_not_wrapped (py : Interp) (swe : Swe) (p : gmap string pyval)
    (dt : datetime) (lat lon jd : float) (pre post : list body) (c : body)
    (result : pyval) (e : exn) :
  validates py p dt lat lon ->
  julday swe (year dt) (month dt) (day dt) (fractional_hour dt) = Ok jd ->
  bodies = (pre ++ c :: post)%list ->
  (forall c', c' ∈ pre -> exists pl, body_placement swe jd c' = Ok pl) ->
  calc_ut swe jd c = Ok result ->
  unpack_result result = Raise e \/
    (exists lo la di sp,
       unpack_result result = Ok (lo, la, di, sp) /\ py_lt_zero sp = Raise e) ->
  build_chart py swe p = Raise e /\ is_shape_error e = true /\ is_runtime_error e = false.
Proof.
  intros Hv Hjd Hsplit Hpre Hcalc Hbad.
  assert (body_placement swe jd c = Raise e /\ is_shape_error e = true) as [Hc Hkind].
  { unfold body_placement. rewrite Hcalc. cbn.
    destruct Hbad as [Hun|(lo & la & di & sp & Hun & Hlt)]; rewrite Hun; cbn.
    - split; [reflexivity|exact (unpack_result_shape_error _ _ Hun)].
    - rewrite Hlt. split; [reflexivity|exact (py_lt_zero_shape_error _ _ Hlt)]. }
  split; [|split; [exact Hkind|now destruct e]].
  apply (build_chart_loop_raise py swe p dt lat lon jd _ Hv Hjd).
  rewrite Hsplit. now apply body_loop_first_raise.
Qed.

Lemma malformed_answer_not_wrapped_witness :
  build_chart interp_stub swe_three_values equinox_payload
  = Raise (IndexError "tuple index out of range").
Proof.
  refine (proj1 (malformed_answer_not_wrapped interp_stub swe_three_values equinox_payload
                   (mk_datetime 2024 3 20 3 6 0 0 None) 0%float 0%float 2460389.5%float
                   [] (tail bodies) SUN
                   (VTuple [VFloat 10.5; VFloat 0.25; VFloat 1.5])
                   (IndexError "tuple index out of range")
                   _ eq_refl eq_refl _ eq_refl _)).
  - repeat split; vm_compute; reflexivity.
  - intros c' Hc'. inversion Hc'.
  - left. vm_compute. reflexivity.
Defined.

(** X7.  What the build can raise.  A request that passes validation makes
    it raise, if anything, a [RuntimeError] or a [TypeError] or
    [IndexError]; a request that no canonical values validate is refused
    with a [ValueError] that is the same for every provider, none being
    asked. *)
Theorem outcome_kinds (py : Interp) (swe : Swe) (p : gmap string pyval) :
  (forall dt lat lon e,
     validates py p dt lat lon -> build_chart py swe p = Raise e ->
     is_runtime_error e || is_shape_error e = true) /\
  ((forall dt lat lon, ~ validates py p dt lat lon) ->
   exists msg, forall swe', build_chart py swe' p = Raise (ValueError msg)).
Proof.
  split; [|apply build_chart_invalid].
  intros dt lat lon e (Hdt & Hlat & Hlr & Hlon & Hnr).
  rewrite (coordinate_ok_range py (-90) 90 _ lat eq_refl eq_refl Hlat) in Hlr.
  rewrite (coordinate_ok_range py (-180) 180 _ lon eq_refl eq_refl Hlon) in Hnr.
  unfold build_chart.
  rewrite Hdt. cbn. rewrite Hlat. cbn. rewrite Hlr. cbn. rewrite Hlon. cbn.
  rewrite Hnr. cbn. intros H.
  apply bind_raise in H as [H|(jd & _ & H)].
  { destruct (julday swe _ _ _ _); [discriminate|]. cbn in H. now injection H as <-. }
  apply bind_raise in H as [H|(pls & _ & H)].
  { exact (body_loop_raise_kind _ _ _ _ _ H). }
  apply bind_raise in H as [H|([[[asc mc] dc] ic] & _ & H)]; [|discriminate].
  unfold try_except in H.
  destruct (_ ≫= _) in H; [discriminate|]. now injection H as <-.
Qed.

Lemma outcome_kinds_witness :
  (forall e,
     build_chart interp_stub (swe_stub 0.5 (Some MARS)) equinox_payload = Raise e ->
     is_runtime_error e || is_shape_error e = true) /\
  exists msg, forall swe',
    build_chart interp_stub swe'
      (example_payload (VStr "2024-03-20T03:06:00Z") (VInt 91) (VInt 0))
    = Raise (ValueError msg).
Proof.
  split.
  - intros e.
    refine (proj1 (outcome_kinds interp_stub (swe_stub 0.5 (Some MARS)) equinox_payload)
              (mk_datetime 2024 3 20 3 6 0 0 None) 0%float 0%float e _).
    repeat split; vm_compute; reflexivity.
  - refine (proj2 (outcome_kinds interp_stub (swe_stub 0.5 None) _) _).
    intros dt lat lon (_ & _ & H & _). vm_compute in H. discriminate H.
Defined.

(** ** The keys of the placements, whatever the provider names the bodies *)

Lemma dict_keys_set_add {V} (d : list (string * V)) k v :
  dict_keys (dict_set d k v) = key_add (dict_keys d) k.
Proof.
  unfold key_add. destruct (bool_decide_reflect (k ∈ dict_keys d)) as [Hin|Hout].
  - now apply dict_keys_set_old.
  - now apply dict_keys_set_new.
Qed.

Lemma key_add_NoDup keys k : NoDup keys -> NoDup (key_add keys k).
Proof.
  intros Hnd. unfold key_add. destruct (bool_decide_reflect (k ∈ keys)); [assumption|].
  apply NoDup_app. repeat split; [assumption| |apply NoDup_singleton].
  intros x Hx ->%list_elem_of_singleton. contradiction.
Qed.

Lemma key_add_elem keys k x : x ∈ key_add keys k <-> x ∈ keys \/ x = k.
Proof.
  unfold key_add. destruct (bool_decide_reflect (k ∈ keys)) as [Hin|Hout].
  - split; [auto|intros [H| ->]; assumption].
  - rewrite elem_of_app, list_elem_of_singleton. reflexivity.
Qed.

Lemma fold_key_add_NoDup ks acc : NoDup acc -> NoDup (fold_left key_add ks acc).
Proof.
  revert acc. induction ks as [|k ks IH]; intros acc Hnd; [assumption|].
  cbn. apply IH. now apply key_add_NoDup.
Qed.

Lemma fold_key_add_elem ks acc x :
  x ∈ fold_left key_add ks acc <-> x ∈ acc \/ x ∈ ks.
Proof.
  revert acc. induction ks as [|k ks IH]; intros acc; cbn.
  - split; [auto|intros [H|H]; [assumption|inversion H]].
  - rewrite IH, key_add_elem, elem_of_cons. tauto.
Qed.

Lemma fold_key_add_length ks acc :
  (length (fold_left key_add ks acc) <= length acc + length ks)%nat.
Proof.
  revert acc. induction ks as [|k ks IH]; intros acc; cbn; [lia|].
  specialize (IH (key_add acc k)). unfold key_add in *.
  destruct (bool_decide (k ∈ acc)); [lia|]. rewrite length_app in IH. cbn in IH. lia.
Qed.

(** All the stores add a key exactly when no key is stored twice. *)
Lemma fold_key_add_full ks acc :
  NoDup acc ->
  length (fold_left key_add ks acc) = (length acc + length ks)%nat <-> NoDup (acc ++ ks).
Proof.
  revert acc. induction ks as [|k ks IH]; intros acc Hnd; cbn.
  - rewrite app_nil_r. split; [intros _; assumption|lia].
  - pose proof (fold_key_add_length ks (key_add acc k)) as Hle.
    pose proof (IH (key_add acc k) (key_add_NoDup acc k Hnd)) as IH'.
    unfold key_add in *. destruct (bool_decide_reflect (k ∈ acc)) as [Hin|Hout].
    + split; [lia|].
      intros (_ & Hdisj & _)%NoDup_app. exfalso. apply (Hdisj k Hin). left.
    + rewrite length_app in *. cbn [length] in *.
      rewrite <- app_assoc in IH'. cbn [app] in IH'. rewrite <- IH'. lia.
Qed.

Lemma body_loop_keys_stored swe jd codes acc pls :
  for_each (body_step swe jd) codes acc = Ok pls ->
  dict_keys pls = fold_left key_add (map (get_planet_name swe) codes) (dict_keys acc).
Proof.
  revert acc. induction codes as [|c0 rest IH]; intros acc H.
  - now injection H as <-.
  - rewrite for_each_cons in H.
    destruct (body_step swe jd acc c0) as [acc'|] eqn:Hs; [|discriminate]. cbn in H.
    apply body_step_Ok in Hs as (pl0 & Hpl0 & ->).
    rewrite (IH _ H), dict_keys_set_add. reflexivity.
Qed.

Lemma angle_store_keys_stored pls asc mc dc ic :
  dict_keys (angle_store pls asc mc dc ic) = fold_left key_add angle_names (dict_keys pls).
Proof. unfold angle_store, angle_names. rewrite !dict_keys_set_add. reflexivity. Qed.

Lemma build_chart_keys py swe (p : gmap string pyval) r :
  build_chart py swe p = Ok r ->
  dict_keys (placements r)
  = keys_stored (map (get_planet_name swe) bodies ++ angle_names).
Proof.
  intros (dt & lat & lon & jd & pls & cusps & ascmc & asc & mc & dc & ic &
          _ & _ & Hpls & _ & _ & _ & _ & _ & ->)%build_chart_Ok.
  cbn [placements].
  rewrite angle_store_keys_stored, (body_loop_keys_stored swe jd bodies [] pls Hpls).
  unfold keys_stored. rewrite fold_left_app. reflexivity.
Qed.

(** X8.  In every successful result the keys of the placements are the
    provider's names of the thirteen bodies and the four angle names, each
    at its first occurrence in that order: no key twice, every body name
    and every angle name a key, nothing else, and never more than 17. *)
Theorem placements_keys_always (py : Interp) (swe : Swe) (p : gmap string pyval)
    (r : chart) :
  build_chart py swe p = Ok r ->
  dict_keys (placements r)
    = keys_stored (map (get_planet_name swe) bodies ++ angle_names) /\
  NoDup (dict_keys (placements r)) /\
  (forall k, k ∈ dict_keys (placements r) <->
             (exists c, c ∈ bodies /\ k = get_planet_name swe c) \/ k ∈ angle_names) /\
  (length (placements r) <= 17)%nat.
Proof.
  intros H. pose proof (build_chart_keys py swe p r H) as Hk.
  split; [exact Hk|]. rewrite Hk. unfold keys_stored. repeat split.
  - apply fold_key_add_NoDup, NoDup_nil_2.
  - rewrite fold_key_add_elem, elem_of_app, list_elem_of_fmap.
    intros [Hnil|[(c & -> & Hc)|Ha]]; [inversion Hnil|eauto|auto].
  - rewrite fold_key_add_elem, elem_of_app, list_elem_of_fmap.
    intros [(c & Hc & ->)|Ha]; eauto.
  - rewrite <- (length_map fst). fold (dict_keys (placements r)). rewrite Hk.
    pose proof (fold_key_add_length
                  (map (get_planet_name swe) bodies ++ angle_names) []) as Hlen.
    rewrite length_app, length_map in Hlen.
    change (length bodies) with 13%nat in Hlen.
    change (length angle_names) with 4%nat in Hlen.
    unfold keys_stored. cbn [length] in Hlen. lia.
Qed.

Lemma placements_keys_always_witness :
  exists r,
    build_chart interp_stub swe_one_name equinox_payload = Ok r /\
    dict_keys (placements r) = ["Sun"; "Ascendant"; "Midheaven"; "Descendant"; "IC"].
Proof.
  eexists. split; [vm_compute; reflexivity|].
  refine (eq_trans (proj1 (placements_keys_always interp_stub swe_one_name
                             equinox_payload _ _)) _);
    vm_compute; reflexivity.
Defined.

(** X9.  A successful result has exactly 17 placements if and only if the
    provider's thirteen names are pairwise distinct and none of them is an
    angle name; otherwise it has fewer. *)
Theorem seventeen_keys_iff_distinct (py : Interp) (swe : Swe) (p : gmap string pyval)
    (r : chart) :
  build_chart py swe p = Ok r ->
  length (placements r) = 17%nat <->
  NoDup (map (get_planet_name swe) bodies ++ angle_names).
Proof.
  intros H. pose proof (build_chart_keys py swe p r H) as Hk.
  rewrite <- (length_map fst). fold (dict_keys (placements r)). rewrite Hk.
  unfold keys_stored.
  rewrite <- (fold_key_add_full (map (get_planet_name swe) bodies ++ angle_names) []
                (NoDup_nil_2 : NoDup (@nil string))).
  rewrite length_app, length_map.
  change (length bodies) with 13%nat. change (length angle_names) with 4%nat.
  reflexivity.
Qed.

Lemma seventeen_keys_iff_distinct_witness :
  exists r,
    build_chart interp_stub swe_apogee_named_IC equinox_payload = Ok r /\
    length (placements r) <> 17%nat /\
    Placement.longitude <$> dict_get (placements r) "IC" = Some (VFloat 110.25).
Proof.
  eexists. split; [vm_compute; reflexivity|]. split; [|vm_compute; reflexivity].
  intros H17.
  apply (seventeen_keys_iff_distinct interp_stub swe_apogee_named_IC equinox_payload) in H17;
    [|vm_compute; reflexivity].
  apply (bool_decide_eq_true_2 _) in H17. vm_compute in H17. discriminate H17.
Defined.

(** ** What the result carries over from the request *)

(** X10.  In every successful result [name] is the payload's [name] ([None]
    when the key is absent), and [latitude] and [longitude] are the floats
    the payload's values convert to: finite, within [[-90, 90]] and
    [[-180, 180]]. *)
Theorem result_echoes_request (py : Interp) (swe : Swe) (p : gmap string pyval)
    (r : chart) :
  build_chart py swe p = Ok r ->
  name r = default VNone (p !! "name") /\
  py_float py (payload_get p "latitude") = Some (latitude r) /\
  py_float py (payload_get p "longitude") = Some (longitude r) /\
  is_finite (latitude r) = true /\
  ((-90 <=? latitude r) && (latitude r <=? 90))%float = true /\
  is_finite (longitude r) = true /\
  ((-180 <=? longitude r) && (longitude r <=? 180))%float = true.
Proof.
  intros (dt & lat & lon & jd & pls & cusps & ascmc & asc & mc & dc & ic &
          (_ & Hlat & Hlr & Hlon & Hnr) & _ & _ & _ & _ & _ & _ & _ & ->)%build_chart_Ok.
  cbn [name latitude longitude].
  rewrite (coordinate_ok_range py (-90) 90 _ lat eq_refl eq_refl Hlat) in Hlr.
  rewrite (coordinate_ok_range py (-180) 180 _ lon eq_refl eq_refl Hlon) in Hnr.
  repeat split; try assumption.
  - exact (between_finite (-90) 90 lat eq_refl eq_refl Hlr).
  - exact (between_finite (-180) 180 lon eq_refl eq_refl Hnr).
Qed.

Lemma result_echoes_request_witness :
  exists r,
    build_chart interp_stub (swe_stub 0.5 None)
      (example_payload (VStr "2024-03-20T03:06:00Z") (VInt 45) (VBool true)) = Ok r /\
    name r = VNone /\ latitude r = 45%float /\ longitude r = 1%float.
Proof.
  eexists. split; [vm_compute; reflexivity|].
  edestruct (result_echoes_request interp_stub (swe_stub 0.5 None)
               (example_payload (VStr "2024-03-20T03:06:00Z") (VInt 45) (VBool true)))
    as (Hname & _); [vm_compute; reflexivity|].
  split; [exact Hname|]. split; vm_compute; reflexivity.
Defined.

(** ** Provider answers that do not unpack *)

(** X11.  What [calc_ut] may return and the builder cannot unpack: a direct
    tuple (not a pair) or list of fewer than four values, and a pair whose
    first component holds fewer than four values, give an [IndexError]; a
    pair whose first component is not a sequence (a status put first, or a
    bare pair of numbers) and a result that is no sequence at all give a
    [TypeError]. *)
Theorem unpack_result_failures :
  (forall l, length l <> 2%nat -> (length l < 4)%nat ->
     unpack_result (VTuple l) = Raise (IndexError "tuple index out of range")) /\
  (forall l, (length l < 4)%nat ->
     unpack_result (VList l) = Raise (IndexError "list index out of range")) /\
  (forall l status, (length l < 4)%nat ->
     unpack_result (VTuple [VTuple l; status])
     = Raise (IndexError "tuple index out of range")) /\
  (forall x y, subscriptable x = false ->
     unpack_result (VTuple [x; y])
     = Raise (TypeError ("'" ++ type_name x ++ "' object is not subscriptable"))) /\
  (forall v, subscriptable v = false ->
     unpack_result v
     = Raise (TypeError ("'" ++ type_name v ++ "' object is not subscriptable"))).
Proof.
  repeat split.
  - intros l H2 H4. destruct l as [|a [|b [|c [|d l]]]]; cbn in *; try lia; reflexivity.
  - intros l H4. destruct l as [|a [|b [|c [|d l]]]]; cbn in *; try lia; reflexivity.
  - intros l status H4.
    destruct l as [|a [|b [|c [|d l]]]]; cbn in *; try lia; reflexivity.
  - intros x y Hx. destruct x; try discriminate; reflexivity.
  - intros v Hv. destruct v; try discriminate; reflexivity.
Qed.

Lemma unpack_result_failures_witness :
  unpack_result (VTuple [VInt 0; VTuple [VFloat 10.5; VFloat 0.25; VFloat 1.5; VFloat 0.5]])
  = Raise (TypeError "'int' object is not subscriptable") /\
  unpack_result (VTuple [VFloat 10.5; VFloat 0.25; VFloat 1.5])
  = Raise (IndexError "tuple index out of range").
Proof.
  split.
  - exact (proj1 (proj2 (proj2 (proj2 unpack_result_failures))) (VInt 0) _ eq_refl).
  - refine (proj1 unpack_result_failures _ _ _); cbn; lia.
Defined.

(** ** Sending back the datetime of a result *)

(** X12.  The [datetime_utc] of a result can be sent back: for a datetime
    with fields in range (as every one parsed from a string has) and a
    year printed in four digits, the result's [datetime_utc] parses to the
    same date and time to the second, with no microseconds and no offset,
    and the request with it in place of the original gets the same
    result. *)
Theorem canonical_datetime_resubmits (py : Interp) (swe : Swe) (p : gmap string pyval)
    (dt : datetime) (r : chart) :
  _parse_datetime py (default (VStr "") (p !! "datetime_utc")) = Ok dt ->
  datetime_fields_ok dt = true ->
  year_zero_filled py = true \/ 1000 <= year dt ->
  build_chart py swe p = Ok r ->
  _parse_datetime py (VStr (datetime_utc r))
  = Ok (mk_datetime (year dt) (month dt) (day dt) (hour dt) (minute dt) (second dt) 0 None) /\
  build_chart py swe (<["datetime_utc" := VStr (datetime_utc r)]> p) = Ok r.
Proof.
  intros Hdt Hok Hyear Hr.
  pose proof Hr as (dt' & lat & lon & jd & pls & cusps & ascmc & asc & mc & dc & ic &
                    (Hdt' & _) & _ & _ & _ & _ & _ & _ & _ & Er)%build_chart_Ok.
  rewrite Hdt in Hdt'. injection Hdt' as <-.
  assert (datetime_utc r = strftime_iso_z py dt) as Eutc by (rewrite Er; reflexivity).
  pose proof (canonical_reparses py dt Hok Hyear) as Hback. rewrite <- Eutc in Hback.
  split; [exact Hback|].
  destruct (p !! "datetime_utc") as [v|] eqn:Hget.
  - rewrite <- Hr. rewrite <- (insert_id p "datetime_utc" v Hget) at 2.
    apply (build_chart_wall_clock py swe p _ _ _ dt Hback Hdt). repeat split.
  - cbn in Hdt. vm_compute in Hdt. discriminate Hdt.
Qed.

Lemma canonical_datetime_resubmits_witness :
  exists r,
    build_chart interp_stub (swe_stub 0.5 None)
      (example_payload (VStr "2024-03-20 03:06:59.250+01:00") (VInt 0) (VInt 0)) = Ok r /\
    datetime_utc r = "2024-03-20T03:06:59Z" /\
    build_chart interp_stub (swe_stub 0.5 None)
      (<["datetime_utc" := VStr (datetime_utc r)]>
         (example_payload (VStr "2024-03-20 03:06:59.250+01:00") (VInt 0) (VInt 0)))
    = Ok r.
Proof.
  eexists. split; [vm_compute; reflexivity|]. split; [vm_compute; reflexivity|].
  refine (proj2 (canonical_datetime_resubmits interp_stub (swe_stub 0.5 None)
                   (example_payload (VStr "2024-03-20 03:06:59.250+01:00") (VInt 0) (VInt 0))
                   (mk_datetime 2024 3 20 3 6 59 250000 (Some 3600000000)) _ _ _ _ _)).
  - vm_compute. reflexivity.
  - vm_compute. reflexivity.
  - right. cbn. lia.
  - vm_compute. reflexivity.
Defined.

(** ** The endpoint *)

Lemma request_dict_lookup (req : ChartRequest.t) :
  request_dict req !! "datetime_utc" = Some (VStr (ChartRequest.datetime_utc req)) /\
  payload_get (request_dict req) "latitude" = VFloat (ChartRequest.latitude req) /\
  payload_get (request_dict req) "longitude" = VFloat (ChartRequest.longitude req) /\
  payload_get (request_dict req) "name"
  = match ChartRequest.name req with Some s => VStr s | None => VNone end.
Proof.
  unfold payload_get, request_dict.
  repeat split;
    repeat first [ rewrite lookup_insert_eq | rewrite lookup_insert_ne by discriminate ];
    reflexivity.
Qed.

Lemma coordinate_ok_float py lo hi (f : float) :
  is_finite lo = true -> is_finite hi = true ->
  coordinate_ok py lo hi (VFloat f) = ((lo <=? f) && (f <=? hi))%float.
Proof. intros Hlo Hhi. now apply coordinate_ok_range. Qed.

(** X13.  The endpoint reports the failures of validation as server
    errors: a [datetime_utc] that the interpreter's [datetime.fromisoformat]
    refuses once a trailing [Z] is taken off, a latitude outside
    [[-90, 90]] (a NaN included) and a longitude outside [[-180, 180]] each
    give an [HTTPException] with status 500 whose detail is the message of
    the [ValueError]. *)
Theorem endpoint_reports_bad_requests (py : Interp) (swe : Swe) (pd : Pydantic)
    (n : option string) (s : string) (lat lon : float) :
  (datetime_fromisoformat py (if ends_with_Z s then drop_last s else s) = None ->
   build_chart_endpoint py swe pd (ChartRequest.mk n s lat lon)
   = HTTPException 500 ("Invalid datetime_utc: '" ++ s ++ "'. Use 'YYYY-MM-DDTHH:MM:SSZ'.")) /\
  (forall dt, _parse_datetime py (VStr s) = Ok dt ->
     ((-90 <=? lat) && (lat <=? 90))%float = false ->
     build_chart_endpoint py swe pd (ChartRequest.mk n s lat lon)
     = HTTPException 500 ("Latitude must be between -90 and 90. Got: "
                          ++ str_other py (VFloat lat) ++ ".")) /\
  (forall dt, _parse_datetime py (VStr s) = Ok dt ->
     ((-90 <=? lat) && (lat <=? 90))%float = true ->
     ((-180 <=? lon) && (lon <=? 180))%float = false ->
     build_chart_endpoint py swe pd (ChartRequest.mk n s lat lon)
     = HTTPException 500 ("Longitude must be between -180 and 180. Got: "
                          ++ str_other py (VFloat lon) ++ ".")).
Proof.
  set (req := ChartRequest.mk n s lat lon).
  destruct (request_dict_lookup req) as (Hdt & Hlat & Hlon & _). cbn in Hdt, Hlat, Hlon.
  repeat split.
  - intros Hbad. unfold build_chart_endpoint, build_chart.
    rewrite Hdt. cbn [from_option id]. unfold _parse_datetime. rewrite Hbad. reflexivity.
  - intros dt Hok Hrange. unfold build_chart_endpoint.
    rewrite (proj1 (coordinate_messages py swe (request_dict req) dt
                      ltac:(rewrite Hdt; exact Hok))).
    + rewrite Hlat. reflexivity.
    + rewrite Hlat, coordinate_ok_float by reflexivity. exact Hrange.
  - intros dt Hok Hlatok Hrange. unfold build_chart_endpoint.
    rewrite (proj2 (coordinate_messages py swe (request_dict req) dt
                      ltac:(rewrite Hdt; exact Hok))).
    + rewrite Hlon. reflexivity.
    + rewrite Hlat, coordinate_ok_float by reflexivity. exact Hlatok.
    + rewrite Hlon, coordinate_ok_float by reflexivity. exact Hrange.
Qed.

Lemma endpoint_reports_bad_requests_witness :
  build_chart_endpoint (interp_prints "nan") (swe_stub 0.5 None) pydantic_stub
    (ChartRequest.mk None "2024-03-20" nan 0)
  = HTTPException 500 "Latitude must be between -90 and 90. Got: nan." /\
  build_chart_endpoint interp_stub (swe_stub 0.5 None) pydantic_stub
    (ChartRequest.mk (Some "x") "yesterday" 0 0)
  = HTTPException 500 "Invalid datetime_utc: 'yesterday'. Use 'YYYY-MM-DDTHH:MM:SSZ'.".
Proof.
  split.
  - refine (proj1 (proj2 (endpoint_reports_bad_requests (interp_prints "nan")
                            (swe_stub 0.5 None) pydantic_stub None "2024-03-20" nan 0))
              (mk_datetime 2024 3 20 0 0 0 0 None) _ _); vm_compute; reflexivity.
  - refine (proj1 (endpoint_reports_bad_requests interp_stub (swe_stub 0.5 None)
                     pydantic_stub (Some "x") "yesterday" 0 0) _). vm_compute. reflexivity.
Defined.

Lemma planet_placement_floats pd pl :
  all_floats pl = true ->
  exists lo la di sp,
    Placement.longitude pl = VFloat lo /\ Placement.latitude pl = VFloat la /\
    Placement.distance_au pl = VFloat di /\ Placement.speed pl = VFloat sp /\
    planet_placement pd pl
    = Some (PlanetPlacement.mk lo la di sp (Placement.retrograde pl)).
Proof.
  destruct pl as [lo la di sp b]. unfold all_floats, planet_placement. cbn.
  destruct lo, la, di, sp; try discriminate. intros _. eauto 10.
Qed.

(** X14.  When the build succeeds on the dict of the request and the
    provider's values are floats, the endpoint returns a response that
    carries the request's [name], [latitude] and [longitude] unchanged, the
    result's [datetime_utc] and [julian_day], and the placements in the
    same order with the same numbers and [retrograde]. *)
Theorem endpoint_response (py : Interp) (swe : Swe) (pd : Pydantic)
    (req : ChartRequest.t) (r : chart) :
  build_chart py swe (request_dict req) = Ok r ->
  Forall (fun kv => all_floats kv.2 = true) (placements r) ->
  exists response,
    build_chart_endpoint py swe pd req = Response response /\
    ChartResponse.name response = ChartRequest.name req /\
    ChartResponse.latitude response = ChartRequest.latitude req /\
    ChartResponse.longitude response = ChartRequest.longitude req /\
    ChartResponse.datetime_utc response = datetime_utc r /\
    ChartResponse.julian_day response = julian_day r /\
    Forall2 (fun kv kv' =>
               kv.1 = kv'.1 /\
               Placement.longitude kv.2 = VFloat (PlanetPlacement.longitude kv'.2) /\
               Placement.latitude kv.2 = VFloat (PlanetPlacement.latitude kv'.2) /\
               Placement.distance_au kv.2 = VFloat (PlanetPlacement.distance_au kv'.2) /\
               Placement.speed kv.2 = VFloat (PlanetPlacement.speed kv'.2) /\
               Placement.retrograde kv.2 = PlanetPlacement.retrograde kv'.2)
            (placements r) (ChartResponse.placements response).
Proof.
  intros Hr Hfl.
  destruct (request_dict_lookup req) as (_ & Hlat & Hlon & Hname).
  pose proof Hr as (dt & lat & lon & jd & pls & cusps & ascmc & asc & mc & dc & ic &
                    (_ & Hflat & _ & Hflon & _) & _ & _ & _ & _ & _ & _ & _ & Er)%build_chart_Ok.
  rewrite Hlat in Hflat. rewrite Hlon in Hflon. injection Hflat as <-. injection Hflon as <-.
  assert (exists pps,
            mapM (fun kv => pl ← planet_placement pd kv.2; Some (kv.1, pl)) (placements r)
            = Some pps /\
            Forall2 (fun kv kv' =>
               kv.1 = kv'.1 /\
               Placement.longitude kv.2 = VFloat (PlanetPlacement.longitude kv'.2) /\
               Placement.latitude kv.2 = VFloat (PlanetPlacement.latitude kv'.2) /\
               Placement.distance_au kv.2 = VFloat (PlanetPlacement.distance_au kv'.2) /\
               Placement.speed kv.2 = VFloat (PlanetPlacement.speed kv'.2) /\
               Placement.retrograde kv.2 = PlanetPlacement.retrograde kv'.2)
              (placements r) pps) as (pps & Hpps & Hrel).
  { clear Er Hr. induction Hfl as [|[k pl] rest Hpl _ (pps & Hpps & Hrel)].
    - exists []. split; [reflexivity|constructor].
    - destruct (planet_placement_floats pd pl Hpl)
        as (lo & la & di & sp & Elo & Ela & Edi & Esp & Epp).
      exists ((k, PlanetPlacement.mk lo la di sp (Placement.retrograde pl)) :: pps).
      split.
      + cbn. cbn in Epp. rewrite Epp. cbn. cbn in Hpps. rewrite Hpps. reflexivity.
      + constructor; [|exact Hrel]. cbn. auto 10. }
  exists (ChartResponse.mk (ChartRequest.name req) (datetime_utc r) (latitude r)
            (longitude r) (julian_day r) pps).
  split.
  - unfold build_chart_endpoint. rewrite Hr. cbn. unfold chart_response.
    rewrite Hpps.
    assert (name r = payload_get (request_dict req) "name") as -> by (rewrite Er; reflexivity).
    rewrite Hname. destruct (ChartRequest.name req); reflexivity.
  - cbn. rewrite Er. cbn. repeat split. rewrite Er in Hrel. exact Hrel.
Qed.

Lemma endpoint_response_witness :
  exists response,
    build_chart_endpoint interp_stub (swe_stub (-0.5) None) pydantic_stub
      (ChartRequest.mk (Some "Ada") "2024-03-20T03:06:00Z" 51.5 (-0.125))
    = Response response /\
    ChartResponse.name response = Some "Ada" /\
    ChartResponse.latitude response = 51.5%float /\
    ChartResponse.longitude response = (-0.125)%float /\
    ChartResponse.datetime_utc response = "2024-03-20T03:06:00Z" /\
    length (ChartResponse.placements response) = 17%nat.
Proof.
  destruct (build_chart interp_stub (swe_stub (-0.5) None)
              (request_dict (ChartRequest.mk (Some "Ada") "2024-03-20T03:06:00Z" 51.5 (-0.125))))
    as [r|e] eqn:Hr; [|vm_compute in Hr; discriminate Hr].
  destruct (endpoint_response interp_stub (swe_stub (-0.5) None) pydantic_stub _ r Hr)
    as (response & Hresp & Hname & Hlat & Hlon & Hutc & _ & Hpls).
  - vm_compute in Hr. injection Hr as <-. repeat constructor.
  - exists response. repeat split; try assumption.
    + rewrite Hutc. vm_compute in Hr. injection Hr as <-. reflexivity.
    + rewrite <- (Forall2_length _ _ _ Hpls). vm_compute in Hr. injection Hr as <-. reflexivity.
Defined.

